(** * color-predictor: the colour-preference pipeline of [app/utils/colorUtils.js]

    A shallow embedding of [hexToRgb], [preprocessData], [trainModel] and
    [predictColor], and the properties of the specification that concern
    them.

    Modelling conventions.
    - A JavaScript string is a [string]: a sequence of code units.  Code units
      above 255 are never hexadecimal digits and never [#], so they behave
      like any other non-digit character of the model.
    - A JavaScript number is a [number]: a rational kept in lowest terms, or
      [NaN].  Rounding of IEEE doubles and the infinities are not modelled.
    - Arrays handed in by the caller live in a store and are passed by
      reference ([VArr]); arrays that a function builds for itself and never
      shares are plain lists.
    - The TensorFlow.js engine is a black box behind [Model]: a forward pass
      and a fit procedure, each of which answers or throws.  Tensors are
      engine resources with an identity; the state records which are live.
    - [await] is a plain call: one training run at a time, as the caller
      guarantees. *)

From Stdlib Require Import ZArith QArith Qabs Lqa String Ascii List Lia.
From Stdlib Require Import NArith Qround.
From stdpp Require Import base option list gmap.
Import ListNotations.

Local Open Scope string_scope.
Local Open Scope nat_scope.

(** ** JavaScript values *)

Inductive number : Type :=
| Num (q : Q)
| NaN.

(** A location of the array store. *)
Definition loc := nat.

Inductive value : Type :=
| VUndefined
| VNull
| VBool (b : bool)
| VNum (n : number)
| VStr (s : string)
| VArr (l : loc)
| VObj.

(** [!v] is [negb (truthy v)]. *)
Definition truthy (v : value) : bool :=
  match v with
  | VUndefined | VNull => false
  | VBool b => b
  | VNum (Num q) => negb (Qeq_bool q 0)
  | VNum NaN => false
  | VStr s => negb (String.eqb s "")
  | VArr _ | VObj => true
  end.

(** [typeof v === 'string'] *)
Definition is_string (v : value) : bool :=
  match v with VStr _ => true | _ => false end.

(** ** Number operations used by the pipeline *)

(** [x / 255] *)
Definition over255 (x : number) : number :=
  match x with
  | Num q => Num (Qred (q / 255))
  | NaN => NaN
  end.

(** [x - y] *)
Definition num_sub (x y : number) : number :=
  match x, y with
  | Num a, Num b => Num (Qred (a - b))
  | _, _ => NaN
  end.

(** [x * y] *)
Definition num_mul (x y : number) : number :=
  match x, y with
  | Num a, Num b => Num (Qred (a * b))
  | _, _ => NaN
  end.

(** [Math.abs(x)] *)
Definition num_abs (x : number) : number :=
  match x with
  | Num a => Num (Qred (Qabs a))
  | NaN => NaN
  end.

(** [x > y]; any comparison with [NaN] is false. *)
Definition num_gt (x y : number) : bool :=
  match x, y with
  | Num a, Num b => if Qlt_le_dec b a then true else false
  | _, _ => false
  end.

(** ** Characters and the regular expression of [hexToRgb] *)

Definition code (c : ascii) : nat := nat_of_ascii c.

Definition in_range (lo hi : nat) (c : ascii) : bool :=
  (lo <=? code c) && (code c <=? hi).

(** [\d] *)
Definition is_digit (c : ascii) : bool := in_range 48 57 c.

(** [a-f], matched under the [i] flag: either case. *)
Definition is_a_to_f (c : ascii) : bool := in_range 97 102 c || in_range 65 70 c.

(** The class [[a-f\d]] of [/.../i]. *)
Definition hex_class (c : ascii) : bool := is_a_to_f c || is_digit c.

(** The value of a digit in radix 16, as [parseInt] reads it. *)
Definition hex_digit (c : ascii) : option Z :=
  if in_range 48 57 c then Some (Z.of_nat (code c - 48))
  else if in_range 97 102 c then Some (Z.of_nat (code c - 87))
  else if in_range 65 70 c then Some (Z.of_nat (code c - 55))
  else None.

(** [parseInt(s, 16)]: the longest prefix of radix-16 digits, [NaN] when it
    is empty.  (White space, a sign and a [0x] prefix, which [parseInt] also
    accepts, cannot occur in what the regular expression captures.) *)
Fixpoint parse_digits (acc : option Z) (s : string) : option Z :=
  match s with
  | EmptyString => acc
  | String c rest =>
      match hex_digit c with
      | Some d => parse_digits (Some (16 * default 0%Z acc + d)%Z) rest
      | None => acc
      end
  end.

Definition parseInt16 (s : string) : number :=
  match parse_digits None s with
  | Some z => Num (inject_Z z)
  | None => NaN
  end.

(** [/^([a-f\d]{2})([a-f\d]{2})([a-f\d]{2})$/i.exec(s)]: the three captured
    groups, or [None] for [null]. *)
Definition exec_rrggbb (s : string) : option (string * string * string) :=
  match s with
  | String c1 (String c2 (String c3 (String c4 (String c5 (String c6 EmptyString))))) =>
      if forallb hex_class [c1; c2; c3; c4; c5; c6]
      then Some (String c1 (String c2 EmptyString),
                 String c3 (String c4 EmptyString),
                 String c5 (String c6 EmptyString))
      else None
  | _ => None
  end.

(** [s.split('')] *)
Fixpoint split_chars (s : string) : list string :=
  match s with
  | EmptyString => []
  | String c rest => String c EmptyString :: split_chars rest
  end.

(** [parts.join('')] *)
Definition join_empty (parts : list string) : string :=
  fold_right String.append EmptyString parts.

(** [hex.charAt(0) === '#' ? hex.substring(1) : hex] *)
Definition strip_hash (hex : string) : string :=
  match hex with
  | String "#" rest => rest
  | _ => hex
  end.

(** [cleaned.length === 3 ? cleaned.split('').map(char => char + char).join('') : cleaned] *)
Definition expand_shorthand (cleaned : string) : string :=
  if String.length cleaned =? 3
  then join_empty (map (fun char => String.append char char) (split_chars cleaned))
  else cleaned.

(** ** The Color Codec *)

(** [hexToRgb(hex)]; [None] is the [null] result.  Nothing inside the
    [try] block of the source can throw, so its [catch] branch is dead. *)
Definition hexToRgb (hex : value) : option (list number) :=
  if negb (truthy hex) || negb (is_string hex) then None
  else
    match hex with
    | VStr s =>
        let cleaned := strip_hash s in
        let expanded := expand_shorthand cleaned in
        match exec_rrggbb expanded with
        | None => None
        | Some (r, g, b) =>
            Some [ over255 (parseInt16 r);
                   over255 (parseInt16 g);
                   over255 (parseInt16 b) ]
        end
    | _ => None
    end.

(** ** Errors, outcomes and the state of a session *)

(** [new Error(message)] *)
Record error : Type := Error { message : string }.

Inductive outcome (A : Type) : Type :=
| Return (a : A)
| Throw (e : error).
Arguments Return {A} a.
Arguments Throw {A} e.

(** The contents of an engine tensor. *)
Record tensor : Type := Tensor { shape : nat * nat; values : list number }.

Definition tensor_id := nat.

(** The argument of [tf.callbacks.earlyStopping]. *)
Record EarlyStopping : Type := {
  monitor : string;
  minDelta : number;
  patience : number;
  mode : string
}.

(** The third argument of [model.fit]. *)
Record FitArgs : Type := {
  epochs : value;
  batchSize : value;
  validationSplit : value;
  shuffle : bool;
  callbacks : list EarlyStopping;
  verbose : number
}.

(** [tf.History]: metric name and value per epoch. *)
Definition History := list (string * list number).

(** The engine behind a model object: what its forward pass and its fit
    procedure answer.  Either may throw. *)
Record Model : Type := {
  forward : tensor -> outcome tensor;
  fit_engine : tensor -> tensor -> FitArgs -> outcome History
}.

(** Calls into the engine, most recent first. *)
Inductive call : Type :=
| CallPredict (input : tensor_id)
| CallFit (xs ys : tensor_id) (args : FitArgs).

Record state : Type := {
  arrays : gmap loc (list value);   (* the caller's arrays *)
  live : gmap tensor_id tensor;     (* tensors not yet disposed *)
  next_id : tensor_id;              (* identity of the next tensor *)
  calls : list call                 (* engine calls made so far *)
}.

(** ** A state and exception monad with [try] / [catch] / [finally] *)

Definition M (A : Type) : Type := state -> outcome A * state.

Definition ret {A} (a : A) : M A := fun st => (Return a, st).

Definition throw {A} (e : error) : M A := fun st => (Throw e, st).

Definition bind {A B} (m : M A) (k : A -> M B) : M B :=
  fun st =>
    match m st with
    | (Return a, st1) => k a st1
    | (Throw e, st1) => (Throw e, st1)
    end.

Declare Scope js_scope.
Delimit Scope js_scope with js.
Notation "'let*' x ':=' m 'in' k" := (bind m (fun x => k))
  (at level 10, x name, m at level 100, k at level 200) : js_scope.
Notation "'run' m 'in' k" := (bind m (fun _ => k))
  (at level 10, m at level 100, k at level 200) : js_scope.

(** [try { body } catch (error) { handler }] *)
Definition try_catch {A} (body : M A) (handler : error -> M A) : M A :=
  fun st =>
    match body st with
    | (Return a, st1) => (Return a, st1)
    | (Throw e, st1) => handler e st1
    end.

(** [try { body } finally { cleanup }]: the cleanup runs on both exits, and
    an exception of its own replaces the outcome of the body. *)
Definition try_finally {A} (body : M A) (cleanup : M unit) : M A :=
  fun st =>
    match body st with
    | (r, st1) =>
        match cleanup st1 with
        | (Return _, st2) => (r, st2)
        | (Throw e, st2) => (Throw e, st2)
        end
    end.

(** ** Engine operations *)

Definition alloc (t : tensor) : M tensor_id :=
  fun st =>
    (Return (next_id st),
     {| arrays := arrays st;
        live := <[next_id st := t]> (live st);
        next_id := S (next_id st);
        calls := calls st |}).

(** [tf.tensor2d(rows)]: the shape is read off the nesting, and the engine
    refuses values that do not fill it. *)
Definition tensor2d_rows (rows : list (list number)) : M tensor_id :=
  let cols := match rows with [] => 0 | r :: _ => length r end in
  let flat := concat rows in
  if length flat =? length rows * cols
  then alloc (Tensor (length rows, cols) flat)
  else throw (Error "tensor2d: values do not match the inferred shape").

(** [tf.tensor2d(flat, [r, c])] *)
Definition tensor2d_flat (flat : list number) (shp : nat * nat) : M tensor_id :=
  if length flat =? fst shp * snd shp
  then alloc (Tensor shp flat)
  else throw (Error "tensor2d: values do not match the given shape").

(** [t.dispose()]; disposing twice is harmless. *)
Definition dispose (t : tensor_id) : M unit :=
  fun st =>
    (Return tt,
     {| arrays := arrays st;
        live := delete t (live st);
        next_id := next_id st;
        calls := calls st |}).

Definition log_call (c : call) : M unit :=
  fun st =>
    (Return tt,
     {| arrays := arrays st;
        live := live st;
        next_id := next_id st;
        calls := c :: calls st |}).

Definition read_tensor (t : tensor_id) : M tensor :=
  fun st =>
    match live st !! t with
    | Some x => (Return x, st)
    | None => (Throw (Error "Tensor is disposed."), st)
    end.

(** [model.predict(input)]: the output is a new tensor of the engine. *)
Definition predict (model : Model) (input : tensor_id) : M tensor_id :=
  (run log_call (CallPredict input) in
   let* x := read_tensor input in
   match forward model x with
   | Return out => alloc out
   | Throw e => throw e
   end)%js.

(** [t.dataSync()] *)
Definition dataSync (t : tensor_id) : M (list number) :=
  (let* x := read_tensor t in ret (values x))%js.

(** [await model.fit(xs, ys, args)] *)
Definition fit (model : Model) (xs ys : tensor_id) (args : FitArgs) : M History :=
  (run log_call (CallFit xs ys args) in
   let* x := read_tensor xs in
   let* y := read_tensor ys in
   match fit_engine model x y args with
   | Return h => ret h
   | Throw e => throw e
   end)%js.

(** Reading an array through its reference.  References always point into
    the store. *)
Definition read_array (l : loc) : M (list value) :=
  fun st => (Return (default [] (arrays st !! l)), st).

(** ** The Data Preprocessor *)

Record Dataset : Type := {
  xs : tensor_id;
  ys : tensor_id;
  totalSamples : nat
}.

(** [.filter(rgb => rgb !== null)] *)
Fixpoint filter_not_null {A} (l : list (option A)) : list A :=
  match l with
  | [] => []
  | None :: rest => filter_not_null rest
  | Some a :: rest => a :: filter_not_null rest
  end.

Definition preprocessData (selectedColors unselectedColors : value) : M Dataset :=
  match selectedColors, unselectedColors with
  | VArr ls, VArr lu =>
      (let* selected := read_array ls in
       let* unselected := read_array lu in
       if (length selected =? 0) || (length unselected =? 0)
       then throw (Error "Both selected and unselected colors must contain data")
       else
         let processedSelected := filter_not_null (map hexToRgb selected) in
         let processedUnselected := filter_not_null (map hexToRgb unselected) in
         if (length processedSelected =? 0) || (length processedUnselected =? 0)
         then throw (Error "No valid colors found after processing")
         else
           let* x := tensor2d_rows (processedSelected ++ processedUnselected) in
           let* y := tensor2d_flat
                  (repeat (Num 1) (length processedSelected)
                   ++ repeat (Num 0) (length processedUnselected))
                  (length processedSelected + length processedUnselected, 1) in
           ret {| xs := x;
                  ys := y;
                  totalSamples := length processedSelected + length processedUnselected |})%js
  | _, _ => throw (Error "Color arrays must be provided")
  end.

(** ** The Trainer *)

(** The options object of [trainModel]; a property that is absent reads as
    [VUndefined]. *)
Record Config : Type := {
  cfg_epochs : value;
  cfg_batchSize : value;
  cfg_validationSplit : value
}.

(** A destructuring default: [{ x = d }] *)
Definition or_default (d : value) (v : value) : value :=
  match v with
  | VUndefined => d
  | _ => v
  end.

Definition empty_config : Config :=
  {| cfg_epochs := VUndefined; cfg_batchSize := VUndefined; cfg_validationSplit := VUndefined |}.

Definition earlyStoppingCallback : EarlyStopping :=
  {| monitor := "val_loss";
     minDelta := Num (1 # 1000);
     patience := Num 5;
     mode := "min" |}.

Definition fit_args (config : option Config) : FitArgs :=
  let c := default empty_config config in
  {| epochs := or_default (VNum (Num 50)) (cfg_epochs c);
     batchSize := or_default (VNum (Num 32)) (cfg_batchSize c);
     validationSplit := or_default (VNum (Num (1 # 5))) (cfg_validationSplit c);
     shuffle := true;
     callbacks := [earlyStoppingCallback];
     verbose := Num 1 |}.

(** [trainModel(model, selectedColors, unselectedColors, config)].  The
    local [tensors] is assigned by the first statement of the [try] block;
    it stays [undefined] ([None]) when [preprocessData] throws. *)
Definition trainModel (model : Model) (selectedColors unselectedColors : value)
    (config : option Config) : M History :=
  fun st =>
    let '(preprocessed, st1) := preprocessData selectedColors unselectedColors st in
    let tensors : option Dataset :=
      match preprocessed with Return d => Some d | Throw _ => None end in
    let rest_of_try : M History :=
      match preprocessed with
      | Throw e => throw e
      | Return d => fit model (xs d) (ys d) (fit_args config)
      end in
    try_finally
      (try_catch rest_of_try
         (fun error => throw (Error ("Training failed: " ++ message error))))
      (match tensors with
       | Some d => (run dispose (xs d) in dispose (ys d))%js
       | None => ret tt
       end)
      st1.

(** ** The Predictor *)

Record PredictionResult : Type := {
  score : option number;      (* [None] is [undefined] *)
  confidence : number;
  likely : bool;
  prediction : string
}.

(** The number an arithmetic operator sees: [undefined] reads as [NaN]. *)
Definition to_number (v : option number) : number := default NaN v.

Definition predictColor (model : Model) (color : value) : M PredictionResult :=
  match hexToRgb color with
  | None => throw (Error "Invalid color format")
  | Some rgb =>
      (let* input := tensor2d_rows [rgb] in
       try_finally
         (let* prediction := predict model input in
          let* data := dataSync prediction in
          let score := data !! 0 in
          let confidence := num_mul (num_abs (num_sub (to_number score) (Num (1 # 2)))) (Num 2) in
          ret {| score := score;
                 confidence := confidence;
                 likely := num_gt (to_number score) (Num (1 # 2));
                 prediction := if num_gt (to_number score) (Num (1 # 2)) then "like" else "dislike" |})
         (dispose input))%js
  end.

(** ** Vocabulary of the specification *)

(** A 3- or 6-hex-digit pattern, either case. *)
Definition matches_hex_pattern (digits : string) : bool :=
  ((String.length digits =? 3) || (String.length digits =? 6))
  && forallb hex_class (list_ascii_of_string digits).

(** A hex colour string: the pattern behind an optional leading [#]. *)
Definition is_hex_color (s : string) : bool := matches_hex_pattern (strip_hash s).

(** The value of a two-hex-digit channel. *)
Definition channel_value (hi lo : ascii) : Z :=
  (16 * default 0 (hex_digit hi) + default 0 (hex_digit lo))%Z.

(** A channel after normalisation. *)
Definition channel (hi lo : ascii) : number :=
  Num (Qred (inject_Z (channel_value hi lo) / 255)).

Definition in_unit_interval (x : number) : Prop :=
  match x with
  | Num q => (0 <= q)%Q /\ (q <= 1)%Q
  | NaN => False
  end.

(** Letter case, character by character. *)
Definition to_lower (c : ascii) : ascii :=
  if in_range 65 90 c then ascii_of_nat (code c + 32) else c.

Definition to_upper (c : ascii) : ascii :=
  if in_range 97 122 c then ascii_of_nat (code c - 32) else c.

Fixpoint map_chars (f : ascii -> ascii) (s : string) : string :=
  match s with
  | EmptyString => EmptyString
  | String c rest => String (f c) (map_chars f rest)
  end.

(** Two strings that differ in letter case only. *)
Definition same_ignoring_case (s t : string) : Prop :=
  map_chars to_lower s = map_chars to_lower t.

(** Digit duplication: [abc] becomes [aabbcc]. *)
Fixpoint duplicate_digits (s : string) : string :=
  match s with
  | EmptyString => EmptyString
  | String c rest => String c (String c (duplicate_digits rest))
  end.

(** The vectors of the entries that parse, in their original order. *)
Definition parseable (colors : list value) : list (list number) :=
  omap hexToRgb colors.

(** What a value is as a list: the elements of the array it refers to. *)
Definition array_of (st : state) (v : value) : option (list value) :=
  match v with
  | VArr l => arrays st !! l
  | _ => None
  end.

(** The error taxonomy of the specification, read off the messages. *)
Definition is_input_validation_error (e : error) : Prop :=
  message e = "Color arrays must be provided"
  \/ message e = "Both selected and unselected colors must contain data".

Definition is_data_error (e : error) : Prop :=
  message e = "No valid colors found after processing".

Definition is_invalid_color_error (e : error) : Prop :=
  message e = "Invalid color format".

(** The dataset that [preprocessData] builds from the vectors of the two
    classes: the input tensor, the label tensor, and the state once both are
    allocated. *)
Definition inputs_tensor (liked disliked : list (list number)) : tensor :=
  Tensor (length liked + length disliked, 3) (concat (liked ++ disliked)).

Definition labels_tensor (liked disliked : list (list number)) : tensor :=
  Tensor (length liked + length disliked, 1)
         (repeat (Num 1) (length liked) ++ repeat (Num 0) (length disliked)).

Definition with_dataset (st : state) (liked disliked : list (list number)) : state :=
  {| arrays := arrays st;
     live := <[S (next_id st) := labels_tensor liked disliked]>
               (<[next_id st := inputs_tensor liked disliked]> (live st));
     next_id := S (S (next_id st));
     calls := calls st |}.

(** Tensor identities are handed out in increasing order: none at or above
    [next_id] is in use. *)
Definition fresh_ids (st : state) : Prop :=
  forall t, next_id st <= t -> live st !! t = None.

(** The wrapper that [trainModel] puts around an error. *)
Definition training_failure (original : error) : error :=
  Error ("Training failed: " ++ message original).

(** The result object built from the first entry of the output data. *)
Definition result_of (data : list number) : PredictionResult :=
  {| score := data !! 0;
     confidence := num_mul (num_abs (num_sub (to_number (data !! 0)) (Num (1 # 2)))) (Num 2);
     likely := num_gt (to_number (data !! 0)) (Num (1 # 2));
     prediction := if num_gt (to_number (data !! 0)) (Num (1 # 2)) then "like" else "dislike" |}.

(** A computation that leaves the caller's arrays as they are. *)
Definition keeps_arrays {A} (m : M A) : Prop :=
  forall st, arrays (snd (m st)) = arrays st.

(** ** Sample sessions and engines *)

Definition empty_session : state :=
  {| arrays := ∅; live := ∅; next_id := 0; calls := [] |}.

(** A session in which the caller owns two arrays of colours. *)
Definition sample_session : state :=
  {| arrays := <[0 := [VStr "#ffffff"; VStr "#ffffff"]]>
                 (<[1 := [VStr "#000000"; VStr "#000000"]]> ∅);
     live := ∅;
     next_id := 0;
     calls := [] |}.

(** A session in which the liked list is empty. *)
Definition empty_liked_session : state :=
  {| arrays := <[0 := []]> (<[1 := [VStr "#000000"]]> ∅);
     live := ∅;
     next_id := 0;
     calls := [] |}.

(** An engine whose forward pass always answers the given score and whose
    fit procedure answers an empty history. *)
Definition constant_model (s : Q) : Model :=
  {| forward := fun _ => Return (Tensor (1, 1) [Num s]);
     fit_engine := fun _ _ _ => Return [] |}.

(** An engine that fails with the given message. *)
Definition failing_model (msg : string) : Model :=
  {| forward := fun _ => Throw (Error msg);
     fit_engine := fun _ _ _ => Throw (Error msg) |}.

(** ** The parameter list of [trainModel] *)

(** The fourth argument as a caller may pass it: left out ([undefined]),
    [null], or a value whose properties are read (an object; a primitive
    has none of the three properties). *)
Inductive options_arg : Type :=
| OptionsUndefined
| OptionsNull
| OptionsObject (c : Config).

(** A call of [trainModel], from its parameter list on.  The pattern
    [{ epochs = 50, batchSize = 32, validationSplit = 0.2 } = {}] is matched
    before the body runs, outside its [try] block: [undefined] takes the
    default [{}], and [null] cannot be destructured, so the runtime throws
    its [TypeError] ([null_options]; the message is the runtime's). *)
Definition trainModel_call (null_options : error) (model : Model)
    (selectedColors unselectedColors : value) (options : options_arg) : M History :=
  match options with
  | OptionsUndefined => trainModel model selectedColors unselectedColors None
  | OptionsObject c => trainModel model selectedColors unselectedColors (Some c)
  | OptionsNull => throw null_options
  end.

(** The options that the body of [trainModel] sees. *)
Definition options_seen (options : options_arg) : option Config :=
  match options with
  | OptionsObject c => Some c
  | OptionsUndefined | OptionsNull => None
  end.

(** ** The Model Factory *)

(** The layers that [createModel] adds, with the options it passes. *)
Inductive Layer : Type :=
| Dense (units : nat) (inputShape : option (list nat)) (activation : option string)
        (kernelInitializer : string)
| BatchNormalization
| Activation (activation : string)
| Dropout (rate : value).

(** [tf.train.adam(learningRate)] *)
Inductive Optimizer : Type :=
| Adam (learningRate : value).

(** The argument of [model.compile]. *)
Record CompileArgs : Type := {
  loss : string;
  optimizer : Optimizer;
  metrics : list string
}.

(** A [tf.sequential()] model under construction: its layers in the order
    they were added, and how it was compiled, if it was. *)
Record Sequential : Type := {
  layers : list Layer;
  compiled : option CompileArgs
}.

Definition sequential : Sequential := {| layers := []; compiled := None |}.

(** [model.add(layer)] *)
Definition add (layer : Layer) (model : Sequential) : Sequential :=
  {| layers := layers model ++ [layer]; compiled := compiled model |}.

(** [model.compile(args)] *)
Definition compile (args : CompileArgs) (model : Sequential) : Sequential :=
  {| layers := layers model; compiled := Some args |}.

(** The options object of [createModel]. *)
Record ModelConfig : Type := {
  cfg_learningRate : value;
  cfg_dropout : value
}.

Definition empty_model_config : ModelConfig :=
  {| cfg_learningRate := VUndefined; cfg_dropout := VUndefined |}.

(** [createModel(config)] *)
Definition createModel (config : option ModelConfig) : Sequential :=
  let c := default empty_model_config config in
  let learningRate := or_default (VNum (Num (1 # 1000))) (cfg_learningRate c) in
  let dropout := or_default (VNum (Num (1 # 5))) (cfg_dropout c) in
  let model := sequential in
  let model := add (Dense 32 (Some [3]) None "glorotNormal") model in
  let model := add BatchNormalization model in
  let model := add (Activation "relu") model in
  let model := add (Dropout dropout) model in
  let model := add (Dense 16 None None "glorotNormal") model in
  let model := add BatchNormalization model in
  let model := add (Activation "relu") model in
  let model := add (Dropout dropout) model in
  let model := add (Dense 1 None (Some "sigmoid") "glorotNormal") model in
  let optimizer := Adam learningRate in
  compile {| loss := "binaryCrossentropy";
             optimizer := optimizer;
             metrics := ["accuracy"; "precision"] |} model.

(** The width a layer gives to its output, from the width of its input:
    a dense layer has [units] outputs, the other layers keep the width. *)
Definition layer_width (w : nat) (layer : Layer) : nat :=
  match layer with
  | Dense units _ _ _ => units
  | BatchNormalization | Activation _ | Dropout _ => w
  end.

(** ** The Persistence Adapter *)

(** The storage of the engine: what [model.save(url)] and
    [tf.loadLayersModel(url)] do to a storage state of type [S]. *)
Record Storage (S : Type) : Type := {
  engine_save : Model -> string -> S -> outcome unit * S;
  engine_load : string -> S -> outcome Model * S
}.
Arguments engine_save {S} _ _ _ _.
Arguments engine_load {S} _ _ _.

(** [saveModel(model, modelId)] *)
Definition saveModel {S} (io : Storage S) (model : Model) (modelId : string)
  : S -> outcome unit * S :=
  fun s =>
    match engine_save io model ("indexeddb://" ++ modelId) s with
    | (Return _, s1) => (Return tt, s1)
    | (Throw error, s1) => (Throw (Error ("Failed to save model: " ++ message error)), s1)
    end.

(** [loadModel(modelId)] *)
Definition loadModel {S} (io : Storage S) (modelId : string)
  : S -> outcome Model * S :=
  fun s =>
    match engine_load io ("indexeddb://" ++ modelId) s with
    | (Return model, s1) => (Return model, s1)
    | (Throw error, s1) => (Throw (Error ("Failed to load model: " ++ message error)), s1)
    end.

(** A storage that keeps what it is given: one entry per address, saving
    always succeeds, loading fails on an address that holds nothing. *)
Definition map_storage : Storage (gmap string Model) :=
  {| engine_save := fun model url s => (Return tt, <[url := model]> s);
     engine_load := fun url s =>
       match s !! url with
       | Some model => (Return model, s)
       | None => (Throw (Error "Cannot find model"), s)
       end |}.

(** ** The page component: recorded colours *)

(** The [colors] state of [ColorPredictor]. *)
Record Colors : Type := {
  selected : list value;
  unselected : list value;
  current : value
}.

(** [useState({ selected: [], unselected: [], current: '#000000' })] *)
Definition initial_colors : Colors :=
  {| selected := []; unselected := []; current := VStr "#000000" |}.

(** The updater that [handleColorSelect(liked)] hands to [setColors]. *)
Definition handleColorSelect (liked : bool) (prev : Colors) : Colors :=
  {| selected := if liked then selected prev ++ [current prev] else selected prev;
     unselected := if liked then unselected prev else unselected prev ++ [current prev];
     current := current prev |}.

(** The updater of the colour picker's [onColorChange(color)]. *)
Definition onColorChange (color : value) (prev : Colors) : Colors :=
  {| selected := selected prev; unselected := unselected prev; current := color |}.

(** [stats.totalSamples] *)
Definition stats_totalSamples (colors : Colors) : nat :=
  length (selected colors) + length (unselected colors).

(** [stats.canTrain] *)
Definition stats_canTrain (colors : Colors) : bool :=
  (2 <=? length (selected colors)) && (2 <=? length (unselected colors)).

(** What the user does to the recorded colours: pick a colour, or press
    Like ([true]) or Dislike ([false]). *)
Inductive ui_event : Type :=
| PickColor (color : value)
| PressButton (liked : bool).

Definition ui_step (colors : Colors) (ev : ui_event) : Colors :=
  match ev with
  | PickColor color => onColorChange color colors
  | PressButton liked => handleColorSelect liked colors
  end.

Definition ui_run (events : list ui_event) : Colors :=
  fold_left ui_step events initial_colors.

(** A picked colour, as the browser's colour input reports it. *)
Definition picks_parse (events : list ui_event) : Prop :=
  Forall (fun ev => match ev with
                    | PickColor color => hexToRgb color <> None
                    | PressButton _ => True
                    end) events.

(** The message that [handleTrainModel] shows for an error it catches:
    [`Training failed: ${error.message || 'Unknown error'}`]. *)
Definition training_error_banner (e : error) : string :=
  "Training failed: "
  ++ (if String.eqb (message e) "" then "Unknown error" else message e).

(** The message that [handlePredict] shows:
    ['Prediction failed: ' + error.message]. *)
Definition prediction_error_banner (e : error) : string :=
  "Prediction failed: " ++ message e.

(** ** The Prediction component *)

(** The [prediction] property: [null], or a number ([None] when it is
    [undefined]). *)
Inductive prediction_prop : Type :=
| PropNull
| PropValue (v : option number).

(** [predictionText]; [None] when the component renders nothing. *)
Definition predictionText (p : prediction_prop) : option string :=
  match p with
  | PropNull => None
  | PropValue v => Some (if num_gt (to_number v) (Num (1 # 2)) then "Like" else "Dislike")
  end.

(** ** The random background colour of the first page *)

(** The digit that [toString(16)] writes for a value below 16. *)
Definition hex_char (d : N) : ascii :=
  match d with
  | 0%N => "0" | 1%N => "1" | 2%N => "2" | 3%N => "3" | 4%N => "4"
  | 5%N => "5" | 6%N => "6" | 7%N => "7" | 8%N => "8" | 9%N => "9"
  | 10%N => "a" | 11%N => "b" | 12%N => "c" | 13%N => "d" | 14%N => "e"
  | _ => "f"
  end%char.

Fixpoint hex_of (fuel : nat) (n : N) : string :=
  match fuel with
  | O => EmptyString
  | S fuel' =>
      if (n <? 16)%N then String (hex_char n) EmptyString
      else hex_of fuel' (n / 16)%N ++ String (hex_char (n mod 16)%N) EmptyString
  end.

(** [n.toString(16)] for a non-negative integer: its digits in radix 16,
    lower case, without leading zeros. *)
Definition toString16 (n : N) : string := hex_of (S (N.to_nat (N.size n))) n.

(** [getRandomColor()], given the number that [Math.random() * 16777215]
    evaluates to: the product as the runtime computes it, a double.  (The
    multiplication of doubles rounds and is left to the runtime; the floor
    of a double and its digits are exact.) *)
Definition getRandomColor (product : Q) : string :=
  let randomColor := toString16 (Z.to_N (Qfloor product)) in
  "#" ++ randomColor.

(** ** Further vocabulary *)

(** The six digits that decide the result of [hexToRgb] on a hex colour
    string: prefix stripped, shorthand expanded, letters in lower case. *)
Definition canonical_digits (s : string) : string :=
  map_chars to_lower (expand_shorthand (strip_hash s)).

(** The vector of six hex digits. *)
Definition vector_of_digits (d : string) : option (list number) :=
  match d with
  | String c1 (String c2 (String c3 (String c4 (String c5 (String c6 EmptyString))))) =>
      Some [channel c1 c2; channel c3 c4; channel c5 c6]
  | _ => None
  end.

(** One call of [trainModel] after another, each on the state the previous
    one left. *)
Definition train_session
    (runs : list (Model * value * value * option Config)) (st : state) : state :=
  fold_left
    (fun st call_args =>
       match call_args with
       | (model, sel, uns, config) => snd (trainModel model sel uns config st)
       end)
    runs st.

(** How often the Like ([true]) or Dislike ([false]) button is pressed. *)
Fixpoint count_presses (liked : bool) (events : list ui_event) : nat :=
  match events with
  | [] => 0
  | PressButton b :: rest =>
      (if Bool.eqb b liked then 1 else 0) + count_presses liked rest
  | PickColor _ :: rest => count_presses liked rest
  end.

(** The options that [handleTrainModel] passes: [{ epochs: 50, batchSize: 32 }]. *)
Definition page_config : option Config :=
  Some {| cfg_epochs := VNum (Num 50);
          cfg_batchSize := VNum (Num 32);
          cfg_validationSplit := VUndefined |}.

(** A value that [hexToRgb] accepts. *)
Definition parses (v : value) : Prop := hexToRgb v <> None.

(** A digit of radix 16 in lower case. *)
Definition lower_hex (c : ascii) : bool := is_digit c || in_range 97 102 c.

Definition all_chars (p : ascii -> bool) (s : string) : bool :=
  forallb p (list_ascii_of_string s).

(** ** Properties of the Color Codec *)

Section Codec.

Lemma hex_class_digit (c : ascii) :
  hex_class c = true -> exists d, hex_digit c = Some d /\ (0 <= d < 16)%Z.
Proof.
  destruct c as [b0 b1 b2 b3 b4 b5 b6 b7].
  destruct b0, b1, b2, b3, b4, b5, b6, b7; intros H; vm_compute in H;
    try discriminate H; eexists; (split; [vm_compute; reflexivity | lia]).
Qed.

Lemma hex_digit_class (c : ascii) :
  hex_class c = false -> hex_digit c = None.
Proof.
  destruct c as [b0 b1 b2 b3 b4 b5 b6 b7].
  destruct b0, b1, b2, b3, b4, b5, b6, b7; vm_compute; intros H;
    try discriminate H; reflexivity.
Qed.

Lemma parseInt16_pair (hi lo : ascii) :
  hex_class hi = true -> hex_class lo = true ->
  parseInt16 (String hi (String lo EmptyString)) = Num (inject_Z (channel_value hi lo)).
Proof.
  intros Hhi Hlo.
  destruct (hex_class_digit hi Hhi) as [dh [Eh _]].
  destruct (hex_class_digit lo Hlo) as [dl [El _]].
  unfold parseInt16, channel_value. simpl. rewrite Eh. simpl. rewrite El. simpl.
  replace (0 + dh)%Z with dh by lia. reflexivity.
Qed.

Lemma channel_value_range (hi lo : ascii) :
  hex_class hi = true -> hex_class lo = true ->
  (0 <= channel_value hi lo <= 255)%Z.
Proof.
  intros Hhi Hlo.
  destruct (hex_class_digit hi Hhi) as [dh [Eh Rh]].
  destruct (hex_class_digit lo Hlo) as [dl [El Rl]].
  unfold channel_value. rewrite Eh, El. simpl. lia.
Qed.

Lemma over255_unit (n : Z) :
  (0 <= n <= 255)%Z -> in_unit_interval (Num (Qred (inject_Z n / 255))).
Proof.
  intros Hn. simpl. rewrite Qred_correct.
  unfold Qle, Qdiv, Qmult, Qinv, inject_Z. simpl. lia.
Qed.

(** What the regular expression answers after shorthand expansion. *)
Lemma exec_expand (t : string) :
  exec_rrggbb (expand_shorthand t) =
  if matches_hex_pattern t
  then match expand_shorthand t with
       | String c1 (String c2 (String c3 (String c4 (String c5 (String c6 _))))) =>
           Some (String c1 (String c2 EmptyString),
                 String c3 (String c4 EmptyString),
                 String c5 (String c6 EmptyString))
       | _ => None
       end
  else None.
Proof.
  destruct t as [|c1 [|c2 [|c3 [|c4 [|c5 [|c6 [|c7 t]]]]]]]; try reflexivity.
  unfold expand_shorthand, matches_hex_pattern. simpl.
  destruct (hex_class c1), (hex_class c2), (hex_class c3); reflexivity.
Qed.

Lemma expanded_six (t : string) :
  matches_hex_pattern t = true ->
  exists c1 c2 c3 c4 c5 c6,
    expand_shorthand t =
      String c1 (String c2 (String c3 (String c4 (String c5 (String c6 EmptyString)))))
    /\ forallb hex_class [c1; c2; c3; c4; c5; c6] = true.
Proof.
  intros H.
  destruct t as [|c1 [|c2 [|c3 [|c4 [|c5 [|c6 [|c7 t]]]]]]]; try discriminate H.
  - exists c1, c1, c2, c2, c3, c3. split; [reflexivity|].
    unfold matches_hex_pattern in H. simpl in H. simpl.
    destruct (hex_class c1), (hex_class c2), (hex_class c3); try discriminate H; reflexivity.
  - exists c1, c2, c3, c4, c5, c6. split; [reflexivity|].
    unfold matches_hex_pattern in H. simpl in H. exact H.
Qed.

(** [hexToRgb] on a string, in one equation. *)
Lemma hexToRgb_string (s : string) :
  hexToRgb (VStr s) =
  if String.eqb s "" then None
  else if matches_hex_pattern (strip_hash s)
  then match expand_shorthand (strip_hash s) with
       | String c1 (String c2 (String c3 (String c4 (String c5 (String c6 _))))) =>
           Some [channel c1 c2; channel c3 c4; channel c5 c6]
       | _ => None
       end
  else None.
Proof.
  unfold hexToRgb. simpl.
  destruct (String.eqb s ""); simpl; [reflexivity|].
  rewrite exec_expand.
  destruct (matches_hex_pattern (strip_hash s)) eqn:Hp; [|reflexivity].
  destruct (expanded_six _ Hp) as (c1 & c2 & c3 & c4 & c5 & c6 & E & Hall).
  rewrite E. simpl in Hall.
  repeat (apply andb_prop in Hall; destruct Hall as [? Hall]).
  unfold channel. rewrite !parseInt16_pair by assumption. reflexivity.
Qed.

Lemma hexToRgb_non_string (v : value) :
  is_string v = false -> hexToRgb v = None.
Proof.
  intros H. unfold hexToRgb. rewrite H.
  destruct (truthy v); reflexivity.
Qed.

Lemma strip_hash_cons (c : ascii) (r : string) :
  strip_hash (String c r) = if Ascii.eqb c "#" then r else String c r.
Proof.
  destruct c as [b0 b1 b2 b3 b4 b5 b6 b7].
  destruct b0, b1, b2, b3, b4, b5, b6, b7; reflexivity.
Qed.

Lemma hash_not_hex (c : ascii) : hex_class c = true -> Ascii.eqb c "#" = false.
Proof.
  destruct (Ascii.eqb_spec c "#") as [->|]; [discriminate | reflexivity].
Qed.

Lemma pattern_first_char (d : string) :
  matches_hex_pattern d = true ->
  exists c r, d = String c r /\ hex_class c = true.
Proof.
  destruct d as [|c r]; [discriminate|].
  unfold matches_hex_pattern. simpl. intros H.
  apply andb_prop in H as [_ H]. apply andb_prop in H as [H _]. eauto.
Qed.

Lemma strip_hash_pattern (d : string) :
  matches_hex_pattern d = true -> strip_hash d = d.
Proof.
  intros H. destruct (pattern_first_char d H) as (c & r & -> & Hc).
  rewrite strip_hash_cons, (hash_not_hex c Hc). reflexivity.
Qed.

(** The codec reads a character only through [#], the class of the regular
    expression and the radix-16 value: a renaming of characters that keeps
    the three does not change the result. *)
Section Renaming.

Variable f : ascii -> ascii.
Hypothesis f_hash : forall c, Ascii.eqb (f c) "#" = Ascii.eqb c "#".
Hypothesis f_class : forall c, hex_class (f c) = hex_class c.
Hypothesis f_digit : forall c, hex_digit (f c) = hex_digit c.

Lemma map_chars_length (s : string) :
  String.length (map_chars f s) = String.length s.
Proof. induction s as [|c r IH]; simpl; congruence. Qed.

Lemma strip_hash_map (s : string) :
  strip_hash (map_chars f s) = map_chars f (strip_hash s).
Proof.
  destruct s as [|c r]; [reflexivity|].
  simpl map_chars at 1. rewrite !strip_hash_cons, f_hash.
  destruct (Ascii.eqb c "#"); reflexivity.
Qed.

Lemma expand_shorthand_map (t : string) :
  expand_shorthand (map_chars f t) = map_chars f (expand_shorthand t).
Proof.
  unfold expand_shorthand. rewrite map_chars_length.
  destruct (String.length t =? 3) eqn:E; [|reflexivity].
  destruct t as [|c1 [|c2 [|c3 [|c4 t]]]]; try discriminate E. reflexivity.
Qed.

Lemma parse_digits_map (s : string) (acc : option Z) :
  parse_digits acc (map_chars f s) = parse_digits acc s.
Proof.
  revert acc. induction s as [|c r IH]; intros acc; simpl; [reflexivity|].
  rewrite f_digit. destruct (hex_digit c); [apply IH | reflexivity].
Qed.

Lemma hexToRgb_map_chars (s : string) :
  hexToRgb (VStr (map_chars f s)) = hexToRgb (VStr s).
Proof.
  unfold hexToRgb. simpl.
  replace (String.eqb (map_chars f s) "") with (String.eqb s "")
    by (destruct s; reflexivity).
  destruct (String.eqb s ""); simpl; [reflexivity|].
  rewrite strip_hash_map, expand_shorthand_map.
  destruct (expand_shorthand (strip_hash s))
    as [|c1 [|c2 [|c3 [|c4 [|c5 [|c6 [|c7 t]]]]]]]; try reflexivity.
  simpl. rewrite !f_class.
  destruct (hex_class c1 && (hex_class c2 && (hex_class c3 &&
            (hex_class c4 && (hex_class c5 && (hex_class c6 && true))))));
    [|reflexivity].
  unfold parseInt16.
  change (String (f c1) (String (f c2) EmptyString))
    with (map_chars f (String c1 (String c2 EmptyString))).
  change (String (f c3) (String (f c4) EmptyString))
    with (map_chars f (String c3 (String c4 EmptyString))).
  change (String (f c5) (String (f c6) EmptyString))
    with (map_chars f (String c5 (String c6 EmptyString))).
  rewrite !parse_digits_map. reflexivity.
Qed.

End Renaming.

Ltac by_cases_on_char c :=
  destruct c as [b0 b1 b2 b3 b4 b5 b6 b7];
  destruct b0, b1, b2, b3, b4, b5, b6, b7; vm_compute; reflexivity.

Lemma hexToRgb_to_lower (s : string) :
  hexToRgb (VStr (map_chars to_lower s)) = hexToRgb (VStr s).
Proof. apply hexToRgb_map_chars; intros c; by_cases_on_char c. Qed.

Lemma hexToRgb_to_upper (s : string) :
  hexToRgb (VStr (map_chars to_upper s)) = hexToRgb (VStr s).
Proof. apply hexToRgb_map_chars; intros c; by_cases_on_char c. Qed.

Lemma hexToRgb_same_ignoring_case (s t : string) :
  same_ignoring_case s t -> hexToRgb (VStr t) = hexToRgb (VStr s).
Proof.
  unfold same_ignoring_case. intros H.
  rewrite <- (hexToRgb_to_lower t), <- (hexToRgb_to_lower s), H. reflexivity.
Qed.

Lemma hexToRgb_strip_hash (s : string) :
  is_hex_color s = true -> hexToRgb (VStr (strip_hash s)) = hexToRgb (VStr s).
Proof.
  unfold is_hex_color. intros H.
  destruct (pattern_first_char _ H) as (c & r & E & Hc).
  rewrite !hexToRgb_string, (strip_hash_pattern _ H), H, E.
  destruct s as [|a s']; [discriminate E|]. reflexivity.
Qed.

Lemma hexToRgb_add_hash (d : string) :
  matches_hex_pattern d = true ->
  hexToRgb (VStr (String "#" d)) = hexToRgb (VStr d).
Proof.
  intros H. symmetry.
  apply (hexToRgb_strip_hash (String "#" d)). exact H.
Qed.

Lemma hexToRgb_duplicate (d : string) :
  String.length d = 3 ->
  hexToRgb (VStr (duplicate_digits d)) = hexToRgb (VStr d)
  /\ hexToRgb (VStr (String "#" (duplicate_digits d))) = hexToRgb (VStr (String "#" d)).
Proof.
  intros L. destruct d as [|c1 [|c2 [|c3 [|c4 t]]]]; try discriminate L.
  rewrite !hexToRgb_string. simpl duplicate_digits.
  change (strip_hash (String "#" ?x)) with x.
  rewrite !strip_hash_cons.
  destruct (Ascii.eqb c1 "#") eqn:E1.
  - apply Ascii.eqb_eq in E1 as ->. split; reflexivity.
  - unfold matches_hex_pattern, expand_shorthand. simpl.
    destruct (hex_class c1), (hex_class c2), (hex_class c3); split; reflexivity.
Qed.

(** A successful parse: the six digits and the three channels. *)
Lemma hexToRgb_some (v : value) (rgb : list number) :
  hexToRgb v = Some rgb ->
  exists s c1 c2 c3 c4 c5 c6,
    v = VStr s
    /\ expand_shorthand (strip_hash s) =
         String c1 (String c2 (String c3 (String c4 (String c5 (String c6 EmptyString)))))
    /\ forallb hex_class [c1; c2; c3; c4; c5; c6] = true
    /\ rgb = [channel c1 c2; channel c3 c4; channel c5 c6]
    /\ (0 <= channel_value c1 c2 <= 255)%Z
    /\ (0 <= channel_value c3 c4 <= 255)%Z
    /\ (0 <= channel_value c5 c6 <= 255)%Z
    /\ Forall in_unit_interval rgb.
Proof.
  intros H.
  destruct v as [| |b|n|s|l|];
    try (rewrite hexToRgb_non_string in H by reflexivity; discriminate H).
  rewrite hexToRgb_string in H.
  destruct (String.eqb s ""); [discriminate H|].
  destruct (matches_hex_pattern (strip_hash s)) eqn:Hp; [|discriminate H].
  destruct (expanded_six _ Hp) as (c1 & c2 & c3 & c4 & c5 & c6 & E & Hall).
  rewrite E in H. injection H as <-.
  exists s, c1, c2, c3, c4, c5, c6.
  pose proof Hall as Hall'. simpl in Hall'.
  repeat (apply andb_prop in Hall'; destruct Hall' as [? Hall']).
  pose proof (channel_value_range c1 c2 ltac:(assumption) ltac:(assumption)).
  pose proof (channel_value_range c3 c4 ltac:(assumption) ltac:(assumption)).
  pose proof (channel_value_range c5 c6 ltac:(assumption) ltac:(assumption)).
  repeat split; try assumption; try lia.
  repeat constructor; apply over255_unit; assumption.
Qed.

End Codec.

(** C6. [hexToRgb] is a total function (it has no throwing path: the result
    is a vector or [null]).  It returns [null] exactly when the input is not
    a string, is the empty string, or does not match the 3- or 6-hex-digit
    pattern once an optional leading [#] is stripped; on success it returns
    exactly three values, each the value of a two-hex-digit channel of the
    expanded string divided by 255, and each within [0,1]. *)
Theorem hexToRgb_null_iff_and_channels (v : value) :
  (hexToRgb v = None <->
     (forall s, v <> VStr s) \/ v = VStr ""
     \/ (exists s, v = VStr s /\ matches_hex_pattern (strip_hash s) = false))
  /\ (forall rgb, hexToRgb v = Some rgb ->
        exists s c1 c2 c3 c4 c5 c6,
          v = VStr s
          /\ expand_shorthand (strip_hash s) =
               String c1 (String c2 (String c3 (String c4 (String c5 (String c6 EmptyString)))))
          /\ forallb hex_class [c1; c2; c3; c4; c5; c6] = true
          /\ rgb = [channel c1 c2; channel c3 c4; channel c5 c6]
          /\ (0 <= channel_value c1 c2 <= 255)%Z
          /\ (0 <= channel_value c3 c4 <= 255)%Z
          /\ (0 <= channel_value c5 c6 <= 255)%Z
          /\ Forall in_unit_interval rgb).
Proof.
  split.
  - destruct v as [| |b|n|s|l|];
      try (split; [intros _; left; intros s; discriminate
                  | intros _; apply hexToRgb_non_string; reflexivity]).
    rewrite hexToRgb_string. split.
    + intros H. right.
      destruct (String.eqb s "") eqn:Es;
        [apply String.eqb_eq in Es; left; congruence|].
      right. exists s. split; [reflexivity|].
      destruct (matches_hex_pattern (strip_hash s)) eqn:Hp; [|reflexivity].
      destruct (expanded_six _ Hp) as (c1 & c2 & c3 & c4 & c5 & c6 & E & _).
      rewrite E in H. discriminate H.
    + intros [H | [H | (s' & H & Hp)]].
      * exfalso. exact (H s eq_refl).
      * injection H as ->. reflexivity.
      * injection H as <-. rewrite Hp. destruct (String.eqb s ""); reflexivity.
  - intros rgb H. apply hexToRgb_some. exact H.
Qed.

(** C7. [hexToRgb] is a function of its argument alone.  For every hex
    colour string (3 or 6 hex digits behind an optional [#]), removing or
    adding the [#] prefix, and changing letter case in any way, give the same
    result; a 3-digit shorthand gives the same vector as its 6-digit
    expansion by digit duplication; ["#fff"] and ["ffffff"] both give
    [1, 1, 1]. *)
Theorem hexToRgb_prefix_case_shorthand (s : string) :
  is_hex_color s = true ->
  hexToRgb (VStr (strip_hash s)) = hexToRgb (VStr s)
  /\ hexToRgb (VStr (String "#" (strip_hash s))) = hexToRgb (VStr s)
  /\ hexToRgb (VStr (map_chars to_upper s)) = hexToRgb (VStr s)
  /\ hexToRgb (VStr (map_chars to_lower s)) = hexToRgb (VStr s)
  /\ (forall t, same_ignoring_case s t -> hexToRgb (VStr t) = hexToRgb (VStr s))
  /\ (String.length (strip_hash s) = 3 ->
      hexToRgb (VStr (duplicate_digits (strip_hash s))) = hexToRgb (VStr s)
      /\ hexToRgb (VStr (String "#" (duplicate_digits (strip_hash s)))) = hexToRgb (VStr s))
  /\ (exists rgb, hexToRgb (VStr s) = Some rgb)
  /\ hexToRgb (VStr "#fff") = Some [Num 1; Num 1; Num 1]
  /\ hexToRgb (VStr "ffffff") = Some [Num 1; Num 1; Num 1].
Proof.
  intros H. pose proof (hexToRgb_strip_hash s H) as Hstrip.
  assert (Hadd : hexToRgb (VStr (String "#" (strip_hash s))) = hexToRgb (VStr s)).
  { rewrite hexToRgb_add_hash by exact H. exact Hstrip. }
  split; [exact Hstrip|]. split; [exact Hadd|].
  split; [apply hexToRgb_to_upper|]. split; [apply hexToRgb_to_lower|].
  split; [apply hexToRgb_same_ignoring_case|].
  split; [|split; [|split; reflexivity]].
  - intros L. rewrite <- Hstrip at 1. rewrite <- Hadd.
    apply hexToRgb_duplicate. exact L.
  - rewrite hexToRgb_string. unfold is_hex_color in H. rewrite H.
    destruct (expanded_six _ H) as (c1 & c2 & c3 & c4 & c5 & c6 & E6 & _).
    rewrite E6. destruct s as [|a r]; [discriminate H|]. simpl. eauto.
Qed.

Lemma hexToRgb_prefix_case_shorthand_witness :
  is_hex_color "#fff" = true
  /\ hexToRgb (VStr "#FfF") = hexToRgb (VStr "#fff")
  /\ hexToRgb (VStr "ffffff") = hexToRgb (VStr "#fff").
Proof.
  assert (H : is_hex_color "#fff" = true) by reflexivity.
  destruct (hexToRgb_prefix_case_shorthand "#fff" H)
    as (_ & _ & _ & _ & Hcase & Hdup & _).
  split; [exact H|]. split.
  - apply Hcase. reflexivity.
  - apply Hdup. reflexivity.
Defined.

Lemma hexToRgb_null_iff_and_channels_witness :
  hexToRgb (VStr "#fff") = Some [Num 1; Num 1; Num 1]
  /\ Forall in_unit_interval [Num 1; Num 1; Num 1].
Proof.
  assert (H : hexToRgb (VStr "#fff") = Some [Num 1; Num 1; Num 1]) by reflexivity.
  split; [exact H|].
  destruct (proj2 (hexToRgb_null_iff_and_channels (VStr "#fff")) _ H)
    as (s & c1 & c2 & c3 & c4 & c5 & c6 & _ & _ & _ & _ & _ & _ & _ & Hunit).
  exact Hunit.
Defined.

(** The examples of the specification. *)
Example hexToRgb_examples :
  hexToRgb (VStr "not-a-color") = None
  /\ hexToRgb VNull = None
  /\ hexToRgb (VNum (Num 123)) = None
  /\ hexToRgb (VStr "#fff") = Some [Num 1; Num 1; Num 1]
  /\ hexToRgb (VStr "ffffff") = Some [Num 1; Num 1; Num 1].
Proof. repeat split; reflexivity. Qed.

(** ["#bad"] is three hex digits: it parses, as [bbaadd]. *)
Example hexToRgb_bad_parses :
  hexToRgb (VStr "#bad") = hexToRgb (VStr "#bbaadd")
  /\ hexToRgb (VStr "#bad") = Some [Num (11 # 15); Num (2 # 3); Num (13 # 15)].
Proof. split; reflexivity. Qed.

(** Without the premise of C7 the prefix is not neutral: a second [#] is
    not stripped. *)
Example hexToRgb_double_hash :
  hexToRgb (VStr "##fff") = None /\ hexToRgb (VStr "#fff") <> None.
Proof. split; [reflexivity | discriminate]. Qed.

(** ** Properties of the Data Preprocessor *)

Section Preprocessor.

Lemma filter_not_null_omap {A B} (f : A -> option B) (l : list A) :
  filter_not_null (map f l) = omap f l.
Proof.
  induction l as [|a l IH]; simpl; [reflexivity|].
  destruct (f a); simpl; rewrite IH; reflexivity.
Qed.

Lemma hexToRgb_length (v : value) (rgb : list number) :
  hexToRgb v = Some rgb -> length rgb = 3.
Proof.
  intros H.
  destruct (hexToRgb_some v rgb H)
    as (s & c1 & c2 & c3 & c4 & c5 & c6 & _ & _ & _ & -> & _).
  reflexivity.
Qed.

Lemma parseable_rows (colors : list value) :
  Forall (fun row => length row = 3) (parseable colors).
Proof.
  unfold parseable. induction colors as [|v l IH]; simpl; [constructor|].
  destruct (hexToRgb v) eqn:E; simpl; [|exact IH].
  constructor; [eapply hexToRgb_length; eassumption | exact IH].
Qed.

Lemma concat_rows_length (rows : list (list number)) :
  Forall (fun row => length row = 3) rows ->
  length (concat rows) = length rows * 3.
Proof.
  induction 1 as [|r rows Hr _ IH]; simpl; [reflexivity|].
  rewrite length_app, Hr, IH. lia.
Qed.

Lemma tensor2d_rows_ok (rows : list (list number)) (st : state) :
  rows <> [] ->
  Forall (fun row => length row = 3) rows ->
  tensor2d_rows rows st = alloc (Tensor (length rows, 3) (concat rows)) st.
Proof.
  intros Hne Hall. unfold tensor2d_rows.
  destruct rows as [|r rows]; [congruence|].
  pose proof (concat_rows_length _ Hall) as L.
  inversion Hall as [|? ? Hr _]; subst. rewrite Hr.
  rewrite (proj2 (Nat.eqb_eq _ _) L). reflexivity.
Qed.

Lemma tensor2d_labels_ok (n m : nat) (st : state) :
  tensor2d_flat (repeat (Num 1) n ++ repeat (Num 0) m) (n + m, 1) st
  = alloc (Tensor (n + m, 1) (repeat (Num 1) n ++ repeat (Num 0) m)) st.
Proof.
  unfold tensor2d_flat.
  assert (L : length (repeat (Num 1) n ++ repeat (Num 0) m) = fst (n + m, 1) * snd (n + m, 1)).
  { rewrite length_app, !repeat_length. simpl. lia. }
  rewrite (proj2 (Nat.eqb_eq _ _) L). reflexivity.
Qed.

(** [preprocessData] on two arrays, in one equation. *)
Lemma preprocessData_arrays (ls lu : loc) (st : state) :
  preprocessData (VArr ls) (VArr lu) st =
  let selected := default [] (arrays st !! ls) in
  let unselected := default [] (arrays st !! lu) in
  if (length selected =? 0) || (length unselected =? 0)
  then (Throw (Error "Both selected and unselected colors must contain data"), st)
  else if (length (parseable selected) =? 0) || (length (parseable unselected) =? 0)
  then (Throw (Error "No valid colors found after processing"), st)
  else (Return {| xs := next_id st;
                  ys := S (next_id st);
                  totalSamples := length (parseable selected) + length (parseable unselected) |},
        with_dataset st (parseable selected) (parseable unselected)).
Proof.
  unfold preprocessData, bind, read_array. cbv zeta.
  destruct ((length (default [] (arrays st !! ls)) =? 0)
            || (length (default [] (arrays st !! lu)) =? 0)); [reflexivity|].
  rewrite !filter_not_null_omap. fold (parseable (default [] (arrays st !! ls))).
  fold (parseable (default [] (arrays st !! lu))).
  set (a := parseable (default [] (arrays st !! ls))).
  set (b := parseable (default [] (arrays st !! lu))).
  destruct ((length a =? 0) || (length b =? 0)) eqn:E; [reflexivity|].
  apply orb_false_elim in E as [Ea Eb].
  rewrite tensor2d_rows_ok.
  - unfold alloc at 1. rewrite tensor2d_labels_ok. unfold alloc, ret, with_dataset,
      inputs_tensor, labels_tensor. simpl. rewrite length_app. reflexivity.
  - destruct a; [discriminate Ea | discriminate].
  - apply Forall_app. split; apply parseable_rows.
Qed.

Lemma preprocessData_not_arrays (selectedColors unselectedColors : value) (st : state) :
  (forall ls lu, ~ (selectedColors = VArr ls /\ unselectedColors = VArr lu)) ->
  preprocessData selectedColors unselectedColors st
  = (Throw (Error "Color arrays must be provided"), st).
Proof.
  intros H.
  destruct selectedColors, unselectedColors; try reflexivity.
  exfalso. eapply H. eauto.
Qed.

(** [preprocessData] on two values that are lists of the store. *)
Lemma preprocessData_listed (st : state) (sel uns : value) (a b : list value) :
  array_of st sel = Some a -> array_of st uns = Some b ->
  preprocessData sel uns st =
  if (length a =? 0) || (length b =? 0)
  then (Throw (Error "Both selected and unselected colors must contain data"), st)
  else if (length (parseable a) =? 0) || (length (parseable b) =? 0)
  then (Throw (Error "No valid colors found after processing"), st)
  else (Return {| xs := next_id st;
                  ys := S (next_id st);
                  totalSamples := length (parseable a) + length (parseable b) |},
        with_dataset st (parseable a) (parseable b)).
Proof.
  intros Ha Hb.
  destruct sel as [| | | | |ls|]; try discriminate Ha.
  destruct uns as [| | | | |lu|]; try discriminate Hb.
  simpl in Ha, Hb. rewrite preprocessData_arrays, Ha, Hb. reflexivity.
Qed.

(** A value that is not a list of the store makes [preprocessData] throw
    one of its two validation errors. *)
Lemma preprocessData_not_listed (st : state) (sel uns : value) :
  array_of st sel = None \/ array_of st uns = None ->
  exists e, preprocessData sel uns st = (Throw e, st) /\ is_input_validation_error e.
Proof.
  intros H.
  destruct sel as [| | | | |ls|];
    try (eexists; split; [reflexivity | left; reflexivity]).
  destruct uns as [| | | | |lu|];
    try (eexists; split; [reflexivity | left; reflexivity]).
  rewrite preprocessData_arrays. simpl in H.
  assert (E : (length (default [] (arrays st !! ls)) =? 0)
              || (length (default [] (arrays st !! lu)) =? 0) = true).
  { destruct H as [-> | ->]; simpl; [reflexivity | apply orb_true_r]. }
  cbv zeta. rewrite E. eexists; split; [reflexivity | right; reflexivity].
Qed.

(** Every run of [preprocessData] either throws and leaves the state as it
    was, or allocates the two tensors of a dataset and nothing else. *)
Lemma preprocessData_cases (st : state) (sel uns : value) :
  (exists e, preprocessData sel uns st = (Throw e, st))
  \/ (exists a b,
        array_of st sel = Some a /\ array_of st uns = Some b
        /\ parseable a <> [] /\ parseable b <> []
        /\ preprocessData sel uns st =
             (Return {| xs := next_id st;
                        ys := S (next_id st);
                        totalSamples := length (parseable a) + length (parseable b) |},
              with_dataset st (parseable a) (parseable b))).
Proof.
  destruct (array_of st sel) as [a|] eqn:Ha;
    [|left; destruct (preprocessData_not_listed st sel uns) as (e & He & _); eauto].
  destruct (array_of st uns) as [b|] eqn:Hb;
    [|left; destruct (preprocessData_not_listed st sel uns) as (e & He & _); eauto].
  rewrite (preprocessData_listed st sel uns a b Ha Hb).
  destruct ((length a =? 0) || (length b =? 0)); [left; eauto|].
  destruct ((length (parseable a) =? 0) || (length (parseable b) =? 0)) eqn:E;
    [left; eauto|].
  apply orb_false_elim in E as [Ea Eb].
  right. exists a, b. repeat split; try reflexivity.
  - intros H. rewrite H in Ea. discriminate Ea.
  - intros H. rewrite H in Eb. discriminate Eb.
Qed.

Lemma parseable_nonempty (colors : list value) :
  parseable colors <> [] -> (length colors =? 0) = false.
Proof. destruct colors; [intros H; exfalso; apply H; reflexivity | reflexivity]. Qed.

Lemma length_nonzero {A} (l : list A) : l <> [] -> (length l =? 0) = false.
Proof. destruct l; [congruence | reflexivity]. Qed.

Lemma parseable_count (colors : list value) :
  length (parseable colors)
  = length (filter (fun v => is_Some (hexToRgb v)) colors).
Proof.
  unfold parseable. induction colors as [|v l IH]; [reflexivity|].
  rewrite filter_cons. simpl. destruct (hexToRgb v) eqn:E; simpl.
  - f_equal. exact IH.
  - exact IH.
Qed.

End Preprocessor.

(** C4. Given two lists that each hold at least one parseable colour,
    [preprocessData] returns a dataset: the input tensor holds the vectors of
    the parseable liked entries in their order, then those of the parseable
    disliked entries in theirs (three values a row); the label tensor holds a
    1 for each of the former, then a 0 for each of the latter; both have as
    many rows as the total count, which is positive and is the number of
    parseable liked plus parseable disliked entries.  Entries that do not
    parse contribute nothing. *)
Theorem preprocessData_dataset (st : state) (sel uns : value) (liked disliked : list value) :
  array_of st sel = Some liked ->
  array_of st uns = Some disliked ->
  parseable liked <> [] ->
  parseable disliked <> [] ->
  exists d st' x y,
    preprocessData sel uns st = (Return d, st')
    /\ live st' !! xs d = Some x
    /\ live st' !! ys d = Some y
    /\ values x = concat (parseable liked ++ parseable disliked)
    /\ Forall (fun row => length row = 3) (parseable liked ++ parseable disliked)
    /\ values y = (repeat (Num 1) (length (parseable liked))
                   ++ repeat (Num 0) (length (parseable disliked)))%list
    /\ shape x = (totalSamples d, 3)
    /\ shape y = (totalSamples d, 1)
    /\ length (values y) = totalSamples d
    /\ 0 < totalSamples d
    /\ totalSamples d
       = length (filter (fun v => is_Some (hexToRgb v)) liked)
         + length (filter (fun v => is_Some (hexToRgb v)) disliked)
    /\ (forall row, row ∈ parseable liked <-> exists v, v ∈ liked /\ hexToRgb v = Some row)
    /\ (forall row, row ∈ parseable disliked <-> exists v, v ∈ disliked /\ hexToRgb v = Some row).
Proof.
  intros Ha Hb Hl Hd.
  rewrite (preprocessData_listed st sel uns liked disliked Ha Hb).
  rewrite (parseable_nonempty _ Hl), (parseable_nonempty _ Hd).
  rewrite (length_nonzero _ Hl), (length_nonzero _ Hd). simpl.
  eexists _, _, (inputs_tensor (parseable liked) (parseable disliked)),
    (labels_tensor (parseable liked) (parseable disliked)).
  split; [reflexivity|]. simpl.
  split; [rewrite lookup_insert_ne by lia; apply lookup_insert_eq|].
  split; [apply lookup_insert_eq|].
  split; [reflexivity|].
  split; [apply Forall_app; split; apply parseable_rows|].
  split; [reflexivity|].
  split; [reflexivity|].
  split; [reflexivity|].
  split; [rewrite length_app, !repeat_length; reflexivity|].
  split; [destruct (parseable liked); [congruence | simpl; lia]|].
  split; [rewrite !parseable_count; reflexivity|].
  split; intros row; apply list_elem_of_omap.
Qed.

Lemma preprocessData_dataset_witness :
  exists d st',
    preprocessData (VArr 0) (VArr 1) sample_session = (Return d, st')
    /\ totalSamples d = 4
    /\ live st' !! ys d = Some (Tensor (4, 1) [Num 1; Num 1; Num 0; Num 0]).
Proof.
  destruct (preprocessData_dataset sample_session (VArr 0) (VArr 1)
              [VStr "#ffffff"; VStr "#ffffff"] [VStr "#000000"; VStr "#000000"])
    as (d & st' & x & y & Hrun & _ & Hy & _ & _ & Hvals & _ & Hshape & _ & _ & Hcount & _);
    [reflexivity | reflexivity | discriminate | discriminate |].
  exists d, st'. split; [exact Hrun|]. split; [exact Hcount|].
  rewrite Hy. destruct y as [shp vals]. simpl in Hvals, Hshape.
  rewrite Hvals, Hshape, Hcount. reflexivity.
Defined.

#[local] Set Warnings "-clear-no-such-hyp".

(** C5. [preprocessData] fails with an input-validation error exactly when
    an argument is not a list or a list is empty; with two non-empty lists
    it fails with a data error exactly when one of them holds no parseable
    colour; otherwise it succeeds, so one usable sample per class is
    enough. *)
Theorem preprocessData_failure_modes (st : state) (sel uns : value) :
  ((exists e, fst (preprocessData sel uns st) = Throw e /\ is_input_validation_error e)
   <-> array_of st sel = None \/ array_of st uns = None
       \/ array_of st sel = Some [] \/ array_of st uns = Some [])
  /\ (forall a b,
        array_of st sel = Some a -> array_of st uns = Some b -> a <> [] -> b <> [] ->
        ((exists e, fst (preprocessData sel uns st) = Throw e /\ is_data_error e)
         <-> parseable a = [] \/ parseable b = []))
  /\ ((exists d, fst (preprocessData sel uns st) = Return d)
      <-> exists a b, array_of st sel = Some a /\ array_of st uns = Some b
                      /\ parseable a <> [] /\ parseable b <> [])
  /\ (forall a b,
        array_of st sel = Some a -> array_of st uns = Some b ->
        length (parseable a) = 1 -> length (parseable b) = 1 ->
        exists d, fst (preprocessData sel uns st) = Return d /\ totalSamples d = 2).
Proof.
  destruct (array_of st sel) as [a|] eqn:Ha; [destruct (array_of st uns) as [b|] eqn:Hb|].
  - rewrite (preprocessData_listed st sel uns a b Ha Hb).
    remember (parseable a) as pa eqn:Epa. remember (parseable b) as pb eqn:Epb.
    unfold is_input_validation_error, is_data_error.
    destruct a as [|va a'], b as [|vb b'], pa as [|ra pa'], pb as [|rb pb'];
      try discriminate Epa; try discriminate Epb; simpl;
      (split; [|split; [|split]]); try naive_solver.
    all: try (intros a b [= <-] [= <-] La Lb;
              try rewrite <- Epa in La; try rewrite <- Epb in Lb;
              try rewrite <- Epa; try rewrite <- Epb;
              first [ discriminate La | discriminate Lb
                    | split; [intros (e & He & _); discriminate He
                             | intros [H | H]; discriminate H]
                    | eexists; split; [reflexivity | simpl in La, Lb |- *; lia] ]).
    split; [|intros _; eexists; reflexivity].
    intros _. exists (va :: a'), (vb :: b'). rewrite <- Epa, <- Epb.
    repeat split; discriminate.
  - destruct (preprocessData_not_listed st sel uns (or_intror Hb)) as (e & He & Hv).
    rewrite He. simpl.
    split; [split; [intros _; auto | intros _; eauto]|].
    split; [intros ? ? _ [=]|].
    split; [split; [intros [d Hd]; discriminate Hd | intros (a0 & b0 & _ & [=] & _)]|].
    intros ? ? _ [=].
  - destruct (preprocessData_not_listed st sel uns (or_introl Ha)) as (e & He & Hv).
    rewrite He. simpl.
    split; [split; [intros _; auto | intros _; eauto]|].
    split; [intros ? ? [=]|].
    split; [split; [intros [d Hd]; discriminate Hd | intros (a0 & b0 & [=] & _)]|].
    intros ? ? [=].
Qed.

Lemma preprocessData_failure_modes_witness :
  exists d, fst (preprocessData (VArr 0) (VArr 1) sample_session) = Return d
            /\ totalSamples d = 4.
Proof.
  destruct (preprocessData_failure_modes sample_session (VArr 0) (VArr 1))
    as (_ & _ & Hok & _).
  destruct (proj2 Hok) as [d Hd].
  - exists [VStr "#ffffff"; VStr "#ffffff"], [VStr "#000000"; VStr "#000000"].
    repeat split; discriminate.
  - exists d. split; [exact Hd|].
    vm_compute in Hd. injection Hd as <-. reflexivity.
Defined.

(** The examples of the specification: an empty liked list is refused, and
    one sample per class is accepted. *)
Example preprocessData_examples :
  fst (preprocessData (VArr 0) (VArr 1)
         {| arrays := <[0 := []]> (<[1 := [VStr "#000000"]]> ∅);
            live := ∅; next_id := 0; calls := [] |})
  = Throw (Error "Both selected and unselected colors must contain data")
  /\ fst (preprocessData (VArr 0) (VArr 1)
            {| arrays := <[0 := [VStr "#fff"; VStr "oops"]]> (<[1 := [VStr "#000000"]]> ∅);
               live := ∅; next_id := 0; calls := [] |})
     = Return {| xs := 0; ys := 1; totalSamples := 2 |}.
Proof. split; vm_compute; reflexivity. Qed.

(** ** The caller's arrays are only read *)

Section Frame.

Create HintDb frame.

Lemma keeps_ret {A} (a : A) : keeps_arrays (ret a).
Proof. intros st. reflexivity. Qed.

Lemma keeps_throw {A} (e : error) : keeps_arrays (@throw A e).
Proof. intros st. reflexivity. Qed.

Lemma keeps_bind {A B} (m : M A) (k : A -> M B) :
  keeps_arrays m -> (forall a, keeps_arrays (k a)) -> keeps_arrays (bind m k).
Proof.
  intros Hm Hk st. unfold bind. specialize (Hm st).
  destruct (m st) as [[a|e] st1]; simpl in *; [|exact Hm].
  rewrite Hk. exact Hm.
Qed.

Lemma keeps_try_catch {A} (body : M A) (handler : error -> M A) :
  keeps_arrays body -> (forall e, keeps_arrays (handler e)) ->
  keeps_arrays (try_catch body handler).
Proof.
  intros Hm Hk st. unfold try_catch. specialize (Hm st).
  destruct (body st) as [[a|e] st1]; simpl in *; [exact Hm|].
  rewrite Hk. exact Hm.
Qed.

Lemma keeps_try_finally {A} (body : M A) (cleanup : M unit) :
  keeps_arrays body -> keeps_arrays cleanup ->
  keeps_arrays (try_finally body cleanup).
Proof.
  intros Hm Hc st. unfold try_finally. specialize (Hm st).
  destruct (body st) as [r st1]. specialize (Hc st1).
  destruct (cleanup st1) as [[[]|e] st2]; simpl in *; congruence.
Qed.

Lemma keeps_alloc (t : tensor) : keeps_arrays (alloc t).
Proof. intros st. reflexivity. Qed.

Lemma keeps_dispose (t : tensor_id) : keeps_arrays (dispose t).
Proof. intros st. reflexivity. Qed.

Lemma keeps_log_call (c : call) : keeps_arrays (log_call c).
Proof. intros st. reflexivity. Qed.

Lemma keeps_read_tensor (t : tensor_id) : keeps_arrays (read_tensor t).
Proof. intros st. unfold read_tensor. destruct (live st !! t); reflexivity. Qed.

Lemma keeps_read_array (l : loc) : keeps_arrays (read_array l).
Proof. intros st. reflexivity. Qed.

Lemma keeps_tensor2d_rows (rows : list (list number)) : keeps_arrays (tensor2d_rows rows).
Proof.
  unfold tensor2d_rows.
  destruct (_ =? _); [apply keeps_alloc | apply keeps_throw].
Qed.

Lemma keeps_tensor2d_flat (flat : list number) (shp : nat * nat) :
  keeps_arrays (tensor2d_flat flat shp).
Proof.
  unfold tensor2d_flat.
  destruct (_ =? _); [apply keeps_alloc | apply keeps_throw].
Qed.

Hint Resolve keeps_ret keeps_throw keeps_alloc keeps_dispose keeps_log_call
  keeps_read_tensor keeps_read_array keeps_tensor2d_rows keeps_tensor2d_flat : frame.

Ltac frame :=
  repeat first
    [ apply keeps_bind; [|intro]
    | apply keeps_try_finally
    | apply keeps_try_catch; [|intro]
    | match goal with
      | |- keeps_arrays (if ?c then _ else _) => destruct c
      | |- keeps_arrays (match ?x with _ => _ end) => destruct x
      end
    | solve [auto with frame] ].

Lemma keeps_fit (model : Model) (x y : tensor_id) (args : FitArgs) :
  keeps_arrays (fit model x y args).
Proof. unfold fit. frame. Qed.

Lemma keeps_predict (model : Model) (input : tensor_id) :
  keeps_arrays (predict model input).
Proof. unfold predict. frame. Qed.

Lemma keeps_dataSync (t : tensor_id) : keeps_arrays (dataSync t).
Proof. unfold dataSync. frame. Qed.

Lemma keeps_preprocessData (sel uns : value) : keeps_arrays (preprocessData sel uns).
Proof. unfold preprocessData. frame. Qed.

Lemma keeps_trainModel (model : Model) (sel uns : value) (config : option Config) :
  keeps_arrays (trainModel model sel uns config).
Proof.
  intros st. unfold trainModel.
  pose proof (keeps_preprocessData sel uns st) as Hpre.
  destruct (preprocessData sel uns st) as [r st1]. simpl in Hpre.
  rewrite <- Hpre.
  apply (keeps_try_finally (A := History)).
  - apply keeps_try_catch; [|intro; apply keeps_throw].
    destruct r; [apply keeps_fit | apply keeps_throw].
  - destruct r; [|apply keeps_ret].
    apply keeps_bind; [|intro]; apply keeps_dispose.
Qed.

Lemma keeps_predictColor (model : Model) (color : value) :
  keeps_arrays (predictColor model color).
Proof.
  unfold predictColor. pose proof keeps_predict. pose proof keeps_dataSync. frame.
Qed.

End Frame.

(** C10. [preprocessData] and [trainModel] leave the array store as they
    found it, whether they return or throw: the caller's liked and disliked
    lists have the same elements, hence the same length, after the call. *)
Theorem caller_arrays_unchanged (model : Model) (sel uns : value)
    (config : option Config) (st : state) :
  arrays (snd (preprocessData sel uns st)) = arrays st
  /\ arrays (snd (trainModel model sel uns config st)) = arrays st
  /\ (forall v elems,
        array_of st v = Some elems ->
        array_of (snd (preprocessData sel uns st)) v = Some elems
        /\ array_of (snd (trainModel model sel uns config st)) v = Some elems).
Proof.
  pose proof (keeps_preprocessData sel uns st) as Hp.
  pose proof (keeps_trainModel model sel uns config st) as Ht.
  split; [exact Hp|]. split; [exact Ht|].
  intros v elems Hv. destruct v; try discriminate Hv.
  simpl in *. rewrite Hp, Ht. split; exact Hv.
Qed.

Lemma caller_arrays_unchanged_witness :
  array_of (snd (trainModel (constant_model (9 # 10)) (VArr 0) (VArr 1) None sample_session))
           (VArr 0)
  = Some [VStr "#ffffff"; VStr "#ffffff"].
Proof.
  apply (caller_arrays_unchanged (constant_model (9 # 10)) (VArr 0) (VArr 1) None
           sample_session).
  reflexivity.
Defined.

(** ** Properties of the Trainer *)

Section Trainer.

Variable model : Model.
Variables selectedColors unselectedColors : value.
Variable config : option Config.

(** When [preprocessData] throws, the [catch] clause wraps its error. *)
Lemma trainModel_preprocess_throws (st st1 : state) (e : error) :
  preprocessData selectedColors unselectedColors st = (Throw e, st1) ->
  trainModel model selectedColors unselectedColors config st
  = (Throw (training_failure e), st1).
Proof. intros H. unfold trainModel. rewrite H. reflexivity. Qed.

(** When [preprocessData] returns, the outcome is that of [fit], wrapped if
    it is an error, and both tensors are disposed of. *)
Lemma trainModel_preprocess_returns (st st1 : state) (d : Dataset) :
  preprocessData selectedColors unselectedColors st = (Return d, st1) ->
  trainModel model selectedColors unselectedColors config st
  = let '(r, st2) := fit model (xs d) (ys d) (fit_args config) st1 in
    (match r with
     | Return h => Return h
     | Throw e => Throw (training_failure e)
     end,
     {| arrays := arrays st2;
        live := delete (ys d) (delete (xs d) (live st2));
        next_id := next_id st2;
        calls := calls st2 |}).
Proof.
  intros H. unfold trainModel. rewrite H.
  unfold try_finally, try_catch.
  destruct (fit model (xs d) (ys d) (fit_args config) st1) as [[h|e] st2]; reflexivity.
Qed.

(** [fit] on the two tensors of a fresh dataset. *)
Lemma fit_on_dataset (st : state) (a b : list (list number)) :
  fit model (next_id st) (S (next_id st)) (fit_args config) (with_dataset st a b)
  = (fit_engine model (inputs_tensor a b) (labels_tensor a b) (fit_args config),
     {| arrays := arrays st;
        live := live (with_dataset st a b);
        next_id := S (S (next_id st));
        calls := CallFit (next_id st) (S (next_id st)) (fit_args config) :: calls st |}).
Proof.
  unfold fit, bind, log_call, read_tensor. simpl.
  rewrite lookup_insert_ne by lia. rewrite lookup_insert_eq.
  simpl. rewrite lookup_insert_eq.
  destruct (fit_engine model _ _ _); reflexivity.
Qed.

Lemma dataset_released (st : state) (x y : tensor) :
  fresh_ids st ->
  delete (S (next_id st)) (delete (next_id st)
    (<[S (next_id st) := y]> (<[next_id st := x]> (live st)))) = live st.
Proof.
  intros Hfresh.
  rewrite delete_insert_ne by lia.
  rewrite (delete_insert_id (live st) (next_id st)) by (apply Hfresh; lia).
  apply delete_insert_id. apply Hfresh. lia.
Qed.

(** The tensors of [trainModel] are released on every exit path. *)
Lemma trainModel_releases_tensors (st : state) :
  fresh_ids st ->
  live (snd (trainModel model selectedColors unselectedColors config st)) = live st.
Proof.
  intros Hfresh.
  destruct (preprocessData_cases st selectedColors unselectedColors)
    as [[e He] | (a & b & _ & _ & _ & _ & Hd)].
  - rewrite (trainModel_preprocess_throws _ _ _ He). reflexivity.
  - rewrite (trainModel_preprocess_returns _ _ _ Hd). cbn [xs ys].
    rewrite fit_on_dataset. cbn [snd live with_dataset].
    apply dataset_released. exact Hfresh.
Qed.

(** The engine calls of [trainModel]: one fit call when the data is usable,
    none otherwise. *)
Lemma trainModel_calls (st : state) :
  calls (snd (trainModel model selectedColors unselectedColors config st))
  = (match fst (preprocessData selectedColors unselectedColors st) with
     | Return d => [CallFit (xs d) (ys d) (fit_args config)]
     | Throw _ => []
     end ++ calls st)%list.
Proof.
  destruct (preprocessData_cases st selectedColors unselectedColors)
    as [[e He] | (a & b & _ & _ & _ & _ & Hd)].
  - rewrite (trainModel_preprocess_throws _ _ _ He), He. reflexivity.
  - rewrite (trainModel_preprocess_returns _ _ _ Hd), Hd. cbn [xs ys fst].
    rewrite fit_on_dataset. reflexivity.
Qed.

End Trainer.

Lemma string_length_append (s t : string) :
  String.length (s ++ t) = String.length s + String.length t.
Proof. induction s as [|c s IH]; simpl; [reflexivity | rewrite IH; reflexivity]. Qed.

(** C2, as the code has it.  Whatever is thrown inside the [try] block of
    [trainModel] is caught and thrown again as a new error whose message is
    ["Training failed: "] followed by the original message: on every input
    on which the Preprocessor fails with an error, [trainModel] fails with
    that wrapper around it (not with the error itself), and on every failure
    of the engine's fit procedure it fails with the wrapper around the
    engine's error. *)
Theorem trainModel_wraps_every_error (model : Model) (sel uns : value)
    (config : option Config) (st : state) :
  (forall e st1,
     preprocessData sel uns st = (Throw e, st1) ->
     fst (trainModel model sel uns config st) = Throw (training_failure e)
     /\ message (training_failure e) = "Training failed: " ++ message e
     /\ training_failure e <> e)
  /\ (forall d st1 e,
        preprocessData sel uns st = (Return d, st1) ->
        fst (fit model (xs d) (ys d) (fit_args config) st1) = Throw e ->
        fst (trainModel model sel uns config st) = Throw (training_failure e)
        /\ message (training_failure e) = "Training failed: " ++ message e)
  /\ (forall d st1 h,
        preprocessData sel uns st = (Return d, st1) ->
        fst (fit model (xs d) (ys d) (fit_args config) st1) = Return h ->
        fst (trainModel model sel uns config st) = Return h).
Proof.
  split; [|split].
  - intros e st1 H. rewrite (trainModel_preprocess_throws model sel uns config _ _ _ H).
    split; [reflexivity|]. split; [reflexivity|].
    destruct e as [msg]. unfold training_failure. simpl. intros [= E].
    apply (f_equal String.length) in E. rewrite string_length_append in E.
    simpl in E. lia.
  - intros d st1 e H Hfit.
    rewrite (trainModel_preprocess_returns model sel uns config _ _ _ H).
    destruct (fit model (xs d) (ys d) (fit_args config) st1) as [r st2].
    simpl in Hfit. subst r. split; reflexivity.
  - intros d st1 h H Hfit.
    rewrite (trainModel_preprocess_returns model sel uns config _ _ _ H).
    destruct (fit model (xs d) (ys d) (fit_args config) st1) as [r st2].
    simpl in Hfit. subst r. reflexivity.
Qed.

Lemma trainModel_wraps_every_error_witness :
  fst (trainModel (constant_model (9 # 10)) (VArr 0) (VArr 1) None empty_liked_session)
  = Throw (Error "Training failed: Both selected and unselected colors must contain data")
  /\ fst (trainModel (failing_model "out of memory") (VArr 0) (VArr 1) None sample_session)
     = Throw (Error "Training failed: out of memory").
Proof.
  split.
  - apply (trainModel_wraps_every_error (constant_model (9 # 10)) (VArr 0) (VArr 1) None
             empty_liked_session)
      with (e := Error "Both selected and unselected colors must contain data")
           (st1 := empty_liked_session).
    reflexivity.
  - apply (proj1 (proj2 (trainModel_wraps_every_error (failing_model "out of memory")
                           (VArr 0) (VArr 1) None sample_session)))
      with (d := {| xs := 0; ys := 1; totalSamples := 4 |})
           (st1 := snd (preprocessData (VArr 0) (VArr 1) sample_session))
           (e := Error "out of memory").
    + vm_compute. reflexivity.
    + vm_compute. reflexivity.
Defined.

(** C2 as stated fails: on an empty liked list the Preprocessor raises
    ["Both selected and unselected colors must contain data"], and
    [trainModel] raises a different error. *)
Lemma trainModel_changes_preprocess_error :
  fst (preprocessData (VArr 0) (VArr 1) empty_liked_session)
  = Throw (Error "Both selected and unselected colors must contain data")
  /\ fst (trainModel (constant_model (9 # 10)) (VArr 0) (VArr 1) None empty_liked_session)
     <> Throw (Error "Both selected and unselected colors must contain data").
Proof. split; [reflexivity | vm_compute; discriminate]. Qed.

(** C9. [trainModel] reads [epochs], [batchSize] and [validationSplit] from
    the options with the defaults 50, 32 and 0.2 for what is omitted; it
    builds one early-stopping rule (validation loss, minimum improvement
    0.001, patience 5, minimising) and invokes the engine's fit procedure
    once, on the two tensors of the dataset, with that single rule, shuffling
    enabled and the requested epoch budget, batch size and validation split:
    the call is logged with these arguments, and the outcome of [trainModel]
    is what the engine's fit procedure answers on them (its history, or its
    error inside the wrapper).  When the data is refused the engine is not
    called. *)
Theorem trainModel_fit_arguments (model : Model) (sel uns : value)
    (config : option Config) (st : state) :
  calls (snd (trainModel model sel uns config st))
  = (match fst (preprocessData sel uns st) with
     | Return d => [CallFit (xs d) (ys d) (fit_args config)]
     | Throw _ => []
     end ++ calls st)%list
  /\ (forall d,
        fst (preprocessData sel uns st) = Return d ->
        exists x y,
          live (snd (preprocessData sel uns st)) !! xs d = Some x
          /\ live (snd (preprocessData sel uns st)) !! ys d = Some y
          /\ fst (trainModel model sel uns config st)
             = match fit_engine model x y (fit_args config) with
               | Return h => Return h
               | Throw e => Throw (Error ("Training failed: " ++ message e))
               end)
  /\ shuffle (fit_args config) = true
  /\ callbacks (fit_args config)
     = [ {| monitor := "val_loss"; minDelta := Num (1 # 1000);
            patience := Num 5; mode := "min" |} ]
  /\ fit_args None
     = {| epochs := VNum (Num 50);
          batchSize := VNum (Num 32);
          validationSplit := VNum (Num (1 # 5));
          shuffle := true;
          callbacks := [earlyStoppingCallback];
          verbose := Num 1 |}
  /\ fit_args (Some empty_config) = fit_args None
  /\ (forall c,
        config = Some c ->
        (cfg_epochs c = VUndefined -> epochs (fit_args config) = VNum (Num 50))
        /\ (cfg_epochs c <> VUndefined -> epochs (fit_args config) = cfg_epochs c)
        /\ (cfg_batchSize c = VUndefined -> batchSize (fit_args config) = VNum (Num 32))
        /\ (cfg_batchSize c <> VUndefined -> batchSize (fit_args config) = cfg_batchSize c)
        /\ (cfg_validationSplit c = VUndefined ->
            validationSplit (fit_args config) = VNum (Num (1 # 5)))
        /\ (cfg_validationSplit c <> VUndefined ->
            validationSplit (fit_args config) = cfg_validationSplit c)).
Proof.
  split; [apply trainModel_calls|].
  split.
  { intros d Hd.
    destruct (preprocessData_cases st sel uns)
      as [[e He] | (a & b & _ & _ & _ & _ & Hrun)].
    - rewrite He in Hd. discriminate Hd.
    - rewrite (trainModel_preprocess_returns _ _ _ _ _ _ _ Hrun).
      rewrite Hrun in Hd |- *. injection Hd as <-. cbn [xs ys snd].
      exists (inputs_tensor (parseable a) (parseable b)),
             (labels_tensor (parseable a) (parseable b)).
      split; [simpl; rewrite lookup_insert_ne by lia; apply lookup_insert_eq|].
      split; [simpl; apply lookup_insert_eq|].
      rewrite fit_on_dataset. reflexivity. }
  split; [reflexivity|]. split; [reflexivity|].
  split; [reflexivity|]. split; [reflexivity|].
  intros [e b v] ->. simpl.
  repeat split; intros H; try (rewrite H; reflexivity).
  - destruct e; try reflexivity. congruence.
  - destruct b; try reflexivity. congruence.
  - destruct v; try reflexivity. congruence.
Qed.

Lemma trainModel_fit_arguments_witness :
  calls (snd (trainModel (constant_model (9 # 10)) (VArr 0) (VArr 1)
                (Some {| cfg_epochs := VNum (Num 50);
                         cfg_batchSize := VNum (Num 32);
                         cfg_validationSplit := VUndefined |})
                sample_session))
  = [CallFit 0 1
       {| epochs := VNum (Num 50);
          batchSize := VNum (Num 32);
          validationSplit := VNum (Num (1 # 5));
          shuffle := true;
          callbacks := [earlyStoppingCallback];
          verbose := Num 1 |}]
  /\ fst (trainModel (failing_model "out of memory") (VArr 0) (VArr 1) None sample_session)
     = Throw (Error "Training failed: out of memory").
Proof.
  split.
  - rewrite (proj1 (trainModel_fit_arguments (constant_model (9 # 10)) (VArr 0) (VArr 1)
                      (Some {| cfg_epochs := VNum (Num 50);
                               cfg_batchSize := VNum (Num 32);
                               cfg_validationSplit := VUndefined |})
                      sample_session)).
    reflexivity.
  - destruct (proj1 (proj2 (trainModel_fit_arguments (failing_model "out of memory")
                              (VArr 0) (VArr 1) None sample_session))
                {| xs := 0; ys := 1; totalSamples := 4 |} eq_refl)
      as (x & y & _ & _ & Hrun).
    rewrite Hrun. reflexivity.
Defined.

(** ** Properties of the Predictor *)

Section Predictor.

Variable model : Model.

(** [predictColor] on a colour that parses, in one equation. *)
Lemma predictColor_parsed (color : value) (rgb : list number) (st : state) :
  hexToRgb color = Some rgb ->
  predictColor model color st =
  match forward model (Tensor (1, 3) rgb) with
  | Return out =>
      (Return (result_of (values out)),
       {| arrays := arrays st;
          live := delete (next_id st)
                    (<[S (next_id st) := out]> (<[next_id st := Tensor (1, 3) rgb]> (live st)));
          next_id := S (S (next_id st));
          calls := CallPredict (next_id st) :: calls st |})
  | Throw e =>
      (Throw e,
       {| arrays := arrays st;
          live := delete (next_id st) (<[next_id st := Tensor (1, 3) rgb]> (live st));
          next_id := S (next_id st);
          calls := CallPredict (next_id st) :: calls st |})
  end.
Proof.
  intros H. unfold predictColor. rewrite H.
  destruct (hexToRgb_some _ _ H) as (s & c1 & c2 & c3 & c4 & c5 & c6 & _ & _ & _ & -> & _).
  unfold tensor2d_rows, predict, dataSync, try_finally, bind, log_call, read_tensor.
  simpl. rewrite lookup_insert_eq.
  destruct (forward model _) as [out|e]; simpl; [|reflexivity].
  rewrite lookup_insert_eq. reflexivity.
Qed.

(** The output tensor of a successful prediction stays live. *)
Lemma predictColor_output_stays_live (color : value) (rgb : list number)
    (out : tensor) (st : state) :
  hexToRgb color = Some rgb ->
  forward model (Tensor (1, 3) rgb) = Return out ->
  live (snd (predictColor model color st)) !! S (next_id st) = Some out
  /\ live (snd (predictColor model color st)) !! next_id st = None.
Proof.
  intros H Hf. rewrite (predictColor_parsed _ _ _ H), Hf. simpl. split.
  - rewrite lookup_delete_ne by lia. apply lookup_insert_eq.
  - apply lookup_delete_eq.
Qed.

Lemma confidence_of_score (q : Q) :
  exists c,
    num_mul (num_abs (num_sub (Num q) (Num (1 # 2)))) (Num 2) = Num c
    /\ (c == Qabs (q - (1 # 2)) * 2)%Q
    /\ ((0 <= q)%Q -> (q <= 1)%Q -> in_unit_interval (Num c)).
Proof.
  eexists. split; [reflexivity|].
  assert (E : (Qred (Qred (Qabs (Qred (q - (1 # 2)))) * 2) == Qabs (q - (1 # 2)) * 2)%Q).
  { rewrite !Qred_correct. reflexivity. }
  split; [exact E|].
  intros H0 H1. simpl. rewrite E.
  assert (Habs : (Qabs (q - (1 # 2)) <= 1 # 2)%Q).
  { apply Qabs_Qle_condition. split; lra. }
  pose proof (Qabs_nonneg (q - (1 # 2))) as Hpos.
  split; lra.
Qed.

Lemma num_gt_half (q : Q) :
  num_gt (Num q) (Num (1 # 2)) = true <-> (1 # 2 < q)%Q.
Proof.
  simpl. destruct (Qlt_le_dec (1 # 2) q) as [H|H]; split; intros H'.
  - exact H.
  - reflexivity.
  - discriminate H'.
  - exfalso. lra.
Qed.

End Predictor.

(** C3. For a colour that parses and an engine whose forward pass answers,
    [predictColor] returns a result whose score is the first entry of the
    output, whose confidence is [|score - 0.5| * 2], whose [likely] flag is
    [score > 0.5] and whose label is ["like"] exactly when the flag holds and
    ["dislike"] otherwise; a score within [0,1] gives a confidence within
    [0,1].  The only error [predictColor] can raise for such a colour is one
    that the forward pass itself raises: nothing depends on whether the model
    has been trained. *)
Theorem predictColor_result (model : Model) (color : value) (rgb : list number)
    (st : state) :
  hexToRgb color = Some rgb ->
  (forall out,
     forward model (Tensor (1, 3) rgb) = Return out ->
     exists res,
       fst (predictColor model color st) = Return res
       /\ score res = values out !! 0
       /\ confidence res
          = num_mul (num_abs (num_sub (to_number (score res)) (Num (1 # 2)))) (Num 2)
       /\ likely res = num_gt (to_number (score res)) (Num (1 # 2))
       /\ (prediction res = "like" <-> likely res = true)
       /\ (prediction res = "dislike" <-> likely res = false)
       /\ (forall q,
             score res = Some (Num q) ->
             (exists c,
                confidence res = Num c
                /\ (c == Qabs (q - (1 # 2)) * 2)%Q
                /\ ((0 <= q)%Q -> (q <= 1)%Q -> (0 <= c)%Q /\ (c <= 1)%Q))
             /\ (likely res = true <-> (1 # 2 < q)%Q)))
  /\ (forall e,
        fst (predictColor model color st) = Throw e ->
        forward model (Tensor (1, 3) rgb) = Throw e).
Proof.
  intros H. rewrite (predictColor_parsed model color rgb st H). split.
  - intros out ->. exists (result_of (values out)). simpl.
    split; [reflexivity|]. split; [reflexivity|]. split; [reflexivity|].
    split; [reflexivity|].
    split; [destruct (num_gt _ _); split; congruence|].
    split; [destruct (num_gt _ _); split; congruence|].
    intros q Hq. rewrite Hq. simpl to_number. split.
    + destruct (confidence_of_score q) as (c & Hc & Heq & Hunit).
      exists c. split; [exact Hc|]. split; [exact Heq|]. exact Hunit.
    + apply num_gt_half.
  - intros e. destruct (forward model _) as [out|e']; simpl; congruence.
Qed.

Lemma predictColor_result_witness :
  exists res,
    fst (predictColor (constant_model (9 # 10)) (VStr "#ffffff") empty_session) = Return res
    /\ score res = Some (Num (9 # 10))
    /\ likely res = true
    /\ prediction res = "like".
Proof.
  destruct (proj1 (predictColor_result (constant_model (9 # 10)) (VStr "#ffffff")
                     [Num 1; Num 1; Num 1] empty_session eq_refl)
              (Tensor (1, 1) [Num (9 # 10)]) eq_refl)
    as (res & Hres & Hscore & _ & Hlikely & Hlike & _).
  exists res. split; [exact Hres|]. split; [exact Hscore|].
  assert (L : likely res = true) by (rewrite Hlikely, Hscore; reflexivity).
  split; [exact L | apply Hlike; exact L].
Defined.

(** C8. On a value that does not parse, [predictColor] throws its
    invalid-input error and the state is untouched: no tensor has been
    allocated and the engine has not been called. *)
Theorem predictColor_rejects_unparseable (model : Model) (color : value) (st : state) :
  hexToRgb color = None ->
  exists e st',
    predictColor model color st = (Throw e, st')
    /\ e = Error "Invalid color format"
    /\ is_invalid_color_error e
    /\ st' = st
    /\ next_id st' = next_id st
    /\ live st' = live st
    /\ calls st' = calls st.
Proof.
  intros H. unfold predictColor. rewrite H.
  eexists _, _. split; [reflexivity|]. repeat split.
Qed.

Lemma predictColor_rejects_unparseable_witness :
  fst (predictColor (constant_model (9 # 10)) (VStr "not-a-color") empty_session)
  = Throw (Error "Invalid color format")
  /\ calls (snd (predictColor (constant_model (9 # 10)) (VStr "not-a-color") empty_session))
     = [].
Proof.
  destruct (predictColor_rejects_unparseable (constant_model (9 # 10))
              (VStr "not-a-color") empty_session eq_refl)
    as (e & st' & Hrun & -> & _ & -> & _).
  rewrite Hrun. split; reflexivity.
Defined.

(** ** Scoped tensor lifetime *)

(** The tensors that [trainModel] allocates are all released, on every
    path. *)
Lemma trainModel_scoped (model : Model) (sel uns : value) (config : option Config)
    (st : state) :
  fresh_ids st ->
  live (snd (trainModel model sel uns config st)) = live st
  /\ next_id st <= next_id (snd (trainModel model sel uns config st)).
Proof.
  intros Hfresh. split; [apply trainModel_releases_tensors; exact Hfresh|].
  destruct (preprocessData_cases st sel uns)
    as [[e He] | (a & b & _ & _ & _ & _ & Hd)].
  - rewrite (trainModel_preprocess_throws _ _ _ _ _ _ _ He). reflexivity.
  - rewrite (trainModel_preprocess_returns _ _ _ _ _ _ _ Hd). cbn [xs ys].
    rewrite fit_on_dataset. simpl. lia.
Qed.

(** The input tensor of [predictColor] is released on every path. *)
Lemma predictColor_releases_input (model : Model) (color : value) (st : state) :
  live (snd (predictColor model color st)) !! next_id st = None
  \/ snd (predictColor model color st) = st.
Proof.
  destruct (hexToRgb color) as [rgb|] eqn:H.
  - left. rewrite (predictColor_parsed model color rgb st H).
    destruct (forward model _); simpl; apply lookup_delete_eq.
  - right. unfold predictColor. rewrite H. reflexivity.
Qed.

(** When the forward pass throws, nothing stays allocated. *)
Lemma predictColor_failure_scoped (model : Model) (color : value) (st : state) (e : error) :
  fresh_ids st ->
  fst (predictColor model color st) = Throw e ->
  live (snd (predictColor model color st)) = live st.
Proof.
  intros Hfresh. destruct (hexToRgb color) as [rgb|] eqn:H.
  - rewrite (predictColor_parsed model color rgb st H).
    destruct (forward model _); simpl; [discriminate|].
    intros _. apply delete_insert_id. apply Hfresh. lia.
  - unfold predictColor. rewrite H. reflexivity.
Qed.

(** C1, at a failing input.  [predictColor] on ["#ffffff"] with an engine
    that answers 0.9, from a session without tensors: the input tensor (0) is
    released, the output tensor of the forward pass (1) is still live when
    the call returns. *)
Theorem predictColor_leaks_prediction_tensor :
  live empty_session = ∅
  /\ fst (predictColor (constant_model (9 # 10)) (VStr "#ffffff") empty_session)
     = Return {| score := Some (Num (9 # 10));
                 confidence := Num (4 # 5);
                 likely := true;
                 prediction := "like" |}
  /\ live (snd (predictColor (constant_model (9 # 10)) (VStr "#ffffff") empty_session)) !! 0
     = None
  /\ live (snd (predictColor (constant_model (9 # 10)) (VStr "#ffffff") empty_session)) !! 1
     = Some (Tensor (1, 1) [Num (9 # 10)]).
Proof.
  split; [reflexivity|].
  rewrite (predictColor_parsed (constant_model (9 # 10)) (VStr "#ffffff")
             [Num 1; Num 1; Num 1] empty_session eq_refl).
  simpl. split; [reflexivity|]. split.
  - apply lookup_delete_eq.
  - rewrite lookup_delete_ne by lia. apply lookup_insert_eq.
Qed.

(** ** More on the Color Codec *)

Section CodecMore.

Lemma hex_digit_lower (c : ascii) (d : Z) :
  hex_digit c = Some d -> to_lower c = hex_char (Z.to_N d) /\ (0 <= d < 16)%Z.
Proof.
  destruct c as [b0 b1 b2 b3 b4 b5 b6 b7].
  destruct b0, b1, b2, b3, b4, b5, b6, b7; intros H; vm_compute in H;
    try discriminate H; injection H as <-; (split; [reflexivity | lia]).
Qed.

Lemma hex_digit_to_lower (c : ascii) : hex_digit (to_lower c) = hex_digit c.
Proof.
  destruct c as [b0 b1 b2 b3 b4 b5 b6 b7].
  destruct b0, b1, b2, b3, b4, b5, b6, b7; vm_compute; reflexivity.
Qed.

Lemma channel_to_lower (hi lo : ascii) :
  channel (to_lower hi) (to_lower lo) = channel hi lo.
Proof. unfold channel, channel_value. rewrite !hex_digit_to_lower. reflexivity. Qed.

Lemma channel_injective (hi lo hi' lo' : ascii) :
  hex_class hi = true -> hex_class lo = true ->
  hex_class hi' = true -> hex_class lo' = true ->
  channel hi lo = channel hi' lo' ->
  to_lower hi = to_lower hi' /\ to_lower lo = to_lower lo'.
Proof.
  intros H1 H2 H3 H4 E.
  destruct (hex_class_digit _ H1) as (a & Ea & _).
  destruct (hex_class_digit _ H2) as (b & Eb & _).
  destruct (hex_class_digit _ H3) as (a' & Ea' & _).
  destruct (hex_class_digit _ H4) as (b' & Eb' & _).
  destruct (hex_digit_lower _ _ Ea) as [La Ra].
  destruct (hex_digit_lower _ _ Eb) as [Lb Rb].
  destruct (hex_digit_lower _ _ Ea') as [La' Ra'].
  destruct (hex_digit_lower _ _ Eb') as [Lb' Rb'].
  unfold channel, channel_value in E. rewrite Ea, Eb, Ea', Eb' in E. simpl in E.
  injection E as E.
  assert (Q : (inject_Z (16 * a + b) / 255 == inject_Z (16 * a' + b') / 255)%Q).
  { transitivity (Qred (inject_Z (16 * a + b) / 255));
      [symmetry; apply Qred_correct|].
    rewrite E. apply Qred_correct. }
  unfold Qeq, Qdiv, Qmult, Qinv, inject_Z in Q. simpl in Q.
  assert (a = a' /\ b = b') as [-> ->] by lia.
  rewrite La, Lb, La', Lb'. split; reflexivity.
Qed.

Lemma vector_of_digits_lower (d : string) :
  vector_of_digits (map_chars to_lower d) = vector_of_digits d.
Proof.
  destruct d as [|c1 [|c2 [|c3 [|c4 [|c5 [|c6 [|c7 d]]]]]]]; try reflexivity.
  simpl. rewrite !channel_to_lower. reflexivity.
Qed.

Lemma hexToRgb_vector (s : string) :
  is_hex_color s = true ->
  hexToRgb (VStr s) = vector_of_digits (expand_shorthand (strip_hash s)).
Proof.
  intros H. rewrite hexToRgb_string. unfold is_hex_color in H. rewrite H.
  destruct (expanded_six _ H) as (c1 & c2 & c3 & c4 & c5 & c6 & E & _).
  rewrite E. destruct s; [discriminate H | reflexivity].
Qed.

End CodecMore.

(** X1. Two hex colour strings give the same vector exactly when they
    denote the same six digits once the prefix is stripped, a shorthand is
    expanded and letter case is ignored: different colours never collide. *)
Theorem hexToRgb_same_vector_iff (s t : string) :
  is_hex_color s = true ->
  is_hex_color t = true ->
  (hexToRgb (VStr s) = hexToRgb (VStr t) <-> canonical_digits s = canonical_digits t).
Proof.
  intros Hs Ht. rewrite (hexToRgb_vector s Hs), (hexToRgb_vector t Ht).
  unfold canonical_digits.
  destruct (expanded_six _ Hs) as (c1 & c2 & c3 & c4 & c5 & c6 & -> & Hc).
  destruct (expanded_six _ Ht) as (d1 & d2 & d3 & d4 & d5 & d6 & -> & Hd).
  simpl in Hc, Hd.
  repeat (apply andb_prop in Hc; destruct Hc as [? Hc]).
  repeat (apply andb_prop in Hd; destruct Hd as [? Hd]).
  split.
  - simpl. intros E.
    assert (E1 : channel c1 c2 = channel d1 d2) by congruence.
    assert (E2 : channel c3 c4 = channel d3 d4) by congruence.
    assert (E3 : channel c5 c6 = channel d5 d6) by congruence.
    apply channel_injective in E1 as [-> ->]; try assumption.
    apply channel_injective in E2 as [-> ->]; try assumption.
    apply channel_injective in E3 as [-> ->]; try assumption.
    reflexivity.
  - intros E.
    rewrite <- (vector_of_digits_lower (String c1 _)), E.
    apply vector_of_digits_lower.
Qed.

Lemma hexToRgb_same_vector_iff_witness :
  hexToRgb (VStr "#FA0") = hexToRgb (VStr "ffaa00")
  /\ hexToRgb (VStr "#fa0") <> hexToRgb (VStr "#fa1").
Proof.
  split.
  - apply (hexToRgb_same_vector_iff "#FA0" "ffaa00"); reflexivity.
  - intros E.
    apply (hexToRgb_same_vector_iff "#fa0" "#fa1") in E; [discriminate E | reflexivity..].
Defined.

(** ** More on the Data Preprocessor *)

(** X2. [preprocessData] never calls the engine and never touches a tensor
    that exists already.  When it throws it has allocated nothing: the state
    is the one it started from.  When it returns it has allocated exactly two
    tensors, the next two identities, and both are live. *)
Theorem preprocessData_effects (st : state) (sel uns : value) :
  calls (snd (preprocessData sel uns st)) = calls st
  /\ (forall t, t < next_id st ->
        live (snd (preprocessData sel uns st)) !! t = live st !! t)
  /\ (forall e, fst (preprocessData sel uns st) = Throw e ->
        snd (preprocessData sel uns st) = st)
  /\ (forall d, fst (preprocessData sel uns st) = Return d ->
        xs d = next_id st
        /\ ys d = S (next_id st)
        /\ next_id (snd (preprocessData sel uns st)) = S (S (next_id st))
        /\ is_Some (live (snd (preprocessData sel uns st)) !! xs d)
        /\ is_Some (live (snd (preprocessData sel uns st)) !! ys d)).
Proof.
  destruct (preprocessData_cases st sel uns)
    as [[e He] | (a & b & _ & _ & _ & _ & Hd)].
  - rewrite He. simpl. split; [reflexivity|]. split; [reflexivity|].
    split; [reflexivity|]. intros d Hd. discriminate Hd.
  - rewrite Hd. simpl. split; [reflexivity|]. split.
    + intros t Ht. rewrite !lookup_insert_ne by lia. reflexivity.
    + split; [intros e [=]|]. intros d [= <-]. simpl.
      split; [reflexivity|]. split; [reflexivity|]. split; [reflexivity|].
      split.
      * rewrite lookup_insert_ne by lia. rewrite lookup_insert_eq. eauto.
      * rewrite lookup_insert_eq. eauto.
Qed.

Lemma preprocessData_effects_witness :
  snd (preprocessData (VArr 0) (VArr 1) empty_liked_session) = empty_liked_session
  /\ next_id (snd (preprocessData (VArr 0) (VArr 1) sample_session)) = 2.
Proof.
  destruct (preprocessData_effects empty_liked_session (VArr 0) (VArr 1))
    as (_ & _ & Hthrow & _).
  destruct (preprocessData_effects sample_session (VArr 0) (VArr 1))
    as (_ & _ & _ & Hret).
  split.
  - apply (Hthrow (Error "Both selected and unselected colors must contain data")).
    reflexivity.
  - apply (Hret {| xs := 0; ys := 1; totalSamples := 4 |}). reflexivity.
Defined.

Lemma parseable_app (l1 l2 : list value) :
  parseable (l1 ++ l2) = (parseable l1 ++ parseable l2)%list.
Proof. apply omap_app. Qed.

Lemma parseable_same_results (l l' : list value) :
  Forall2 (fun v v' => hexToRgb v = hexToRgb v') l l' -> parseable l = parseable l'.
Proof.
  induction 1 as [|v v' l l' Hv _ IH]; [reflexivity|].
  change (parseable (v :: l)) with (from_option (fun r => r :: parseable l) (parseable l) (hexToRgb v)).
  change (parseable (v' :: l')) with (from_option (fun r => r :: parseable l') (parseable l') (hexToRgb v')).
  rewrite Hv, IH. reflexivity.
Qed.

(** X3. The dataset depends on the two lists only through the vectors of
    their parseable entries.  Two calls whose lists have the same parseable
    vectors, from states with the same tensors, return the same dataset and
    leave the same tensors; so an entry that does not parse can be added or
    removed anywhere, and an entry can be rewritten in any form with the same
    vector (another letter case, with or without [#], shorthand or not),
    without changing the result. *)
Theorem preprocessData_depends_on_vectors
    (st st' : state) (sel uns sel' uns' : value) (a b a' b' : list value) :
  array_of st sel = Some a -> array_of st uns = Some b ->
  array_of st' sel' = Some a' -> array_of st' uns' = Some b' ->
  live st' = live st -> next_id st' = next_id st ->
  parseable a <> [] -> parseable b <> [] ->
  parseable a' = parseable a -> parseable b' = parseable b ->
  fst (preprocessData sel' uns' st') = fst (preprocessData sel uns st)
  /\ live (snd (preprocessData sel' uns' st')) = live (snd (preprocessData sel uns st))
  /\ (forall l1 l2 bad, hexToRgb bad = None ->
        parseable (l1 ++ bad :: l2) = parseable (l1 ++ l2))
  /\ (forall l l', Forall2 (fun v v' => hexToRgb v = hexToRgb v') l l' ->
        parseable l = parseable l').
Proof.
  intros Ha Hb Ha' Hb' Hlive Hnext Hpa Hpb Ea Eb.
  rewrite (preprocessData_listed st sel uns a b Ha Hb).
  rewrite (preprocessData_listed st' sel' uns' a' b' Ha' Hb').
  rewrite Ea, Eb.
  assert (Ha0 : (length a' =? 0) = false)
    by (apply parseable_nonempty; rewrite Ea; exact Hpa).
  assert (Hb0 : (length b' =? 0) = false)
    by (apply parseable_nonempty; rewrite Eb; exact Hpb).
  rewrite Ha0, Hb0, (parseable_nonempty _ Hpa), (parseable_nonempty _ Hpb).
  rewrite (length_nonzero _ Hpa), (length_nonzero _ Hpb). simpl.
  rewrite Hlive, Hnext.
  split; [reflexivity|]. split; [reflexivity|]. split.
  - intros l1 l2 bad Hbad. rewrite !parseable_app. f_equal.
    unfold parseable. simpl. rewrite Hbad. reflexivity.
  - apply parseable_same_results.
Qed.

Lemma preprocessData_depends_on_vectors_witness :
  fst (preprocessData (VArr 0) (VArr 1)
         {| arrays := <[0 := [VStr "oops"; VStr "#FFF"; VStr "ffffff"]]>
                        (<[1 := [VStr "000"; VNull; VStr "#000"]]> ∅);
            live := ∅; next_id := 0; calls := [] |})
  = fst (preprocessData (VArr 0) (VArr 1) sample_session).
Proof.
  eapply (preprocessData_depends_on_vectors sample_session _ (VArr 0) (VArr 1)
            (VArr 0) (VArr 1));
    try reflexivity; discriminate.
Defined.

(** ** More on the Trainer *)

Lemma trainModel_keeps_fresh (model : Model) (sel uns : value)
    (config : option Config) (st : state) :
  fresh_ids st -> fresh_ids (snd (trainModel model sel uns config st)).
Proof.
  intros Hfresh t Ht.
  destruct (trainModel_scoped model sel uns config st Hfresh) as [Hlive Hnext].
  rewrite Hlive. apply Hfresh. lia.
Qed.

(** X4. However many training runs follow one another in a session, and
    whether each succeeds or fails, the set of live tensors after the last
    one is the set before the first: training does not accumulate tensors.
    The caller's arrays are untouched as well. *)
Theorem train_session_scoped
    (runs : list (Model * value * value * option Config)) (st : state) :
  fresh_ids st ->
  live (train_session runs st) = live st
  /\ fresh_ids (train_session runs st)
  /\ arrays (train_session runs st) = arrays st.
Proof.
  revert st. induction runs as [|[[[model sel] uns] config] runs IH]; intros st Hfresh.
  - repeat split; [exact Hfresh].
  - change (train_session ((model, sel, uns, config) :: runs) st)
      with (train_session runs (snd (trainModel model sel uns config st))).
    destruct (IH _ (trainModel_keeps_fresh model sel uns config st Hfresh))
      as (Hlive & Hf & Harr).
    rewrite Hlive, Harr.
    split; [apply trainModel_releases_tensors; exact Hfresh|].
    split; [exact Hf | apply keeps_trainModel].
Qed.

Lemma train_session_scoped_witness :
  live (train_session
          [ (constant_model (9 # 10), VArr 0, VArr 1, None);
            (failing_model "out of memory", VArr 0, VArr 1, None);
            (constant_model (1 # 10), VArr 1, VNull, None) ]
          sample_session)
  = ∅.
Proof.
  apply (train_session_scoped
           [ (constant_model (9 # 10), VArr 0, VArr 1, None);
             (failing_model "out of memory", VArr 0, VArr 1, None);
             (constant_model (1 # 10), VArr 1, VNull, None) ]
           sample_session).
  intros t _. apply lookup_empty.
Defined.

(** X5. On two lists that each hold a parseable colour, [trainModel] hands
    the engine exactly the dataset of those lists (the vectors of the
    parseable entries and their labels) with its fit options, and its outcome
    is the engine's: the history as the engine returned it, or the engine's
    error inside the training-failure wrapper. *)
Theorem trainModel_trains_on_dataset (model : Model) (sel uns : value)
    (config : option Config) (st : state) (a b : list value) :
  array_of st sel = Some a ->
  array_of st uns = Some b ->
  parseable a <> [] ->
  parseable b <> [] ->
  fst (trainModel model sel uns config st)
  = match fit_engine model
            (Tensor (length (parseable a) + length (parseable b), 3)
                    (concat (parseable a ++ parseable b)))
            (Tensor (length (parseable a) + length (parseable b), 1)
                    (repeat (Num 1) (length (parseable a))
                     ++ repeat (Num 0) (length (parseable b))))
            (fit_args config) with
    | Return h => Return h
    | Throw e => Throw (Error ("Training failed: " ++ message e))
    end.
Proof.
  intros Ha Hb Hpa Hpb.
  pose proof (preprocessData_listed st sel uns a b Ha Hb) as Hd.
  rewrite (parseable_nonempty _ Hpa), (parseable_nonempty _ Hpb) in Hd.
  rewrite (length_nonzero _ Hpa), (length_nonzero _ Hpb) in Hd. simpl in Hd.
  rewrite (trainModel_preprocess_returns _ _ _ _ _ _ _ Hd). cbn [xs ys].
  rewrite fit_on_dataset. reflexivity.
Qed.

Lemma trainModel_trains_on_dataset_witness :
  fst (trainModel (failing_model "out of memory") (VArr 0) (VArr 1) None sample_session)
  = Throw (Error "Training failed: out of memory").
Proof.
  rewrite (trainModel_trains_on_dataset (failing_model "out of memory") (VArr 0) (VArr 1)
             None sample_session
             [VStr "#ffffff"; VStr "#ffffff"] [VStr "#000000"; VStr "#000000"]);
    [reflexivity | reflexivity | reflexivity | discriminate | discriminate].
Defined.

(** Every error of [trainModel] carries the prefix of its wrapper. *)
Lemma trainModel_throw_message (model : Model) (sel uns : value)
    (config : option Config) (st : state) (e : error) :
  fst (trainModel model sel uns config st) = Throw e ->
  exists msg, message e = "Training failed: " ++ msg.
Proof.
  unfold trainModel.
  destruct (preprocessData sel uns st) as [[d|e0] st1].
  - unfold try_finally, try_catch.
    destruct (fit model (xs d) (ys d) (fit_args config) st1) as [[h|e1] st2];
      simpl; intros [= <-]. eexists. reflexivity.
  - simpl. intros [= <-]. eexists. reflexivity.
Qed.

(** X6. Every error that leaves the body of [trainModel] is a wrapper:
    its message is ["Training failed: "] followed by the message of the
    error that the Preprocessor or the engine's fit procedure raised.  The
    one error that is not wrapped is raised before the body: when the
    options argument is [null], matching the parameter list fails and the
    runtime's [TypeError] leaves [trainModel] as it is, with nothing
    allocated and the engine not called. *)
Theorem trainModel_errors_are_wrapped (null_options : error) (model : Model)
    (sel uns : value) (options : options_arg) (st : state) (e : error) :
  fst (trainModel_call null_options model sel uns options st) = Throw e ->
  (options = OptionsNull
   /\ e = null_options
   /\ snd (trainModel_call null_options model sel uns options st) = st)
  \/ (options <> OptionsNull
      /\ exists original,
           message e = "Training failed: " ++ message original
           /\ (fst (preprocessData sel uns st) = Throw original
               \/ exists d x y,
                    fst (preprocessData sel uns st) = Return d
                    /\ fit_engine model x y (fit_args (options_seen options))
                       = Throw original)).
Proof.
  assert (Body : forall config,
            fst (trainModel model sel uns config st) = Throw e ->
            exists original,
              message e = "Training failed: " ++ message original
              /\ (fst (preprocessData sel uns st) = Throw original
                  \/ exists d x y,
                       fst (preprocessData sel uns st) = Return d
                       /\ fit_engine model x y (fit_args config) = Throw original)).
  { intros config.
    destruct (preprocessData_cases st sel uns)
      as [[e0 He] | (a & b & _ & _ & _ & _ & Hd)].
    - rewrite (trainModel_preprocess_throws _ _ _ _ _ _ _ He), He. simpl.
      intros [= <-]. exists e0. split; [reflexivity | left; reflexivity].
    - rewrite (trainModel_preprocess_returns _ _ _ _ _ _ _ Hd), Hd. cbn [xs ys].
      rewrite fit_on_dataset. simpl.
      destruct (fit_engine model _ _ _) as [h|e0] eqn:Hfit; intros [= <-].
      exists e0. split; [reflexivity|]. right. eauto. }
  destruct options as [| |c]; simpl.
  - intros H. right. split; [discriminate | apply Body; exact H].
  - intros [= <-]. left. repeat split.
  - intros H. right. split; [discriminate | apply Body; exact H].
Qed.

Lemma trainModel_errors_are_wrapped_witness :
  exists original,
    message (Error "Training failed: Color arrays must be provided")
    = "Training failed: " ++ message original.
Proof.
  destruct (trainModel_errors_are_wrapped
              (Error "Cannot destructure property 'epochs' of 'object null' as it is null.")
              (constant_model (9 # 10)) VNull VNull OptionsUndefined
              empty_session (Error "Training failed: Color arrays must be provided")
              eq_refl)
    as [(Hnull & _) | (_ & original & Hmsg & _)].
  - discriminate Hnull.
  - exists original. exact Hmsg.
Defined.

(** ** More on the Predictor *)

(** X7. When the engine's forward pass throws, [predictColor] throws that
    very error (it adds no wrapper), after one call to the engine; the input
    tensor has been released, so the live tensors are the ones from before
    the call. *)
Theorem predictColor_engine_failure (model : Model) (color : value)
    (rgb : list number) (e : error) (st : state) :
  hexToRgb color = Some rgb ->
  forward model (Tensor (1, 3) rgb) = Throw e ->
  fst (predictColor model color st) = Throw e
  /\ calls (snd (predictColor model color st)) = CallPredict (next_id st) :: calls st
  /\ live (snd (predictColor model color st)) !! next_id st = None
  /\ (fresh_ids st -> live (snd (predictColor model color st)) = live st).
Proof.
  intros H Hf. rewrite (predictColor_parsed model color rgb st H), Hf. simpl.
  split; [reflexivity|]. split; [reflexivity|].
  split; [apply lookup_delete_eq|].
  intros Hfresh. apply delete_insert_id. apply Hfresh. lia.
Qed.

Lemma predictColor_engine_failure_witness :
  fst (predictColor (failing_model "backend lost") (VStr "#fff") empty_session)
  = Throw (Error "backend lost")
  /\ live (snd (predictColor (failing_model "backend lost") (VStr "#fff") empty_session))
     = ∅.
Proof.
  destruct (predictColor_engine_failure (failing_model "backend lost") (VStr "#fff")
              [Num 1; Num 1; Num 1] (Error "backend lost") empty_session
              eq_refl eq_refl)
    as (Hthrow & _ & _ & Hlive).
  split; [exact Hthrow|]. apply Hlive. intros t _. apply lookup_empty.
Defined.

Lemma confidence_closed_form (q : Q) :
  num_mul (num_abs (num_sub (Num q) (Num (1 # 2)))) (Num 2)
  = Num (Qred (Qabs (q - (1 # 2)) * 2)).
Proof.
  simpl. f_equal. apply Qred_complete. rewrite !Qred_correct. reflexivity.
Qed.

Lemma Qabs_zero_iff (x : Q) : (Qabs x == 0)%Q <-> (x == 0)%Q.
Proof.
  split; intros H.
  - destruct (Qlt_le_dec x 0) as [Hn|Hp].
    + rewrite Qabs_neg in H by lra. lra.
    + rewrite Qabs_pos in H by exact Hp. exact H.
  - rewrite H. reflexivity.
Qed.

Lemma Qred_zero_iff (x : Q) : Qred x = 0%Q <-> (x == 0)%Q.
Proof.
  split; intros H.
  - rewrite <- (Qred_correct x), H. reflexivity.
  - change 0%Q with (Qred 0). apply Qred_complete. exact H.
Qed.

(** X8. For a numeric score, the confidence that [predictColor] reports is
    twice the distance of the score from 0.5.  It is zero exactly at the
    decision boundary, and there the colour is classified as disliked: a
    score of exactly 0.5 is not a like. *)
Theorem predictColor_confidence (model : Model) (color : value)
    (rgb : list number) (out : tensor) (q : Q) (st : state) :
  hexToRgb color = Some rgb ->
  forward model (Tensor (1, 3) rgb) = Return out ->
  values out !! 0 = Some (Num q) ->
  exists res,
    fst (predictColor model color st) = Return res
    /\ confidence res = Num (Qred (Qabs (q - (1 # 2)) * 2))
    /\ (confidence res = Num 0 <-> (q == 1 # 2)%Q)
    /\ ((q == 1 # 2)%Q -> likely res = false /\ prediction res = "dislike").
Proof.
  intros H Hf Hq. rewrite (predictColor_parsed model color rgb st H), Hf.
  exists (result_of (values out)). split; [reflexivity|].
  unfold result_of. rewrite Hq. cbn [confidence likely prediction].
  change (to_number (Some (Num q))) with (Num q).
  rewrite confidence_closed_form.
  split; [reflexivity|]. split.
  - split.
    + intros E0.
      assert (E : Qred (Qabs (q - (1 # 2)) * 2) = 0%Q) by congruence.
      apply Qred_zero_iff in E.
      assert (A : (Qabs (q - (1 # 2)) == 0)%Q).
      { set (x := Qabs (q - (1 # 2))) in *. lra. }
      apply (proj1 (Qabs_zero_iff _)) in A. lra.
    + intros E. f_equal. apply Qred_zero_iff.
      assert (A : (Qabs (q - (1 # 2)) == 0)%Q) by (apply Qabs_zero_iff; lra).
      rewrite A. reflexivity.
  - intros E.
    assert (G : num_gt (Num q) (Num (1 # 2)) = false).
    { destruct (num_gt (Num q) (Num (1 # 2))) eqn:G; [|reflexivity].
      apply num_gt_half in G. lra. }
    rewrite G. split; reflexivity.
Qed.

Lemma predictColor_confidence_witness :
  exists res,
    fst (predictColor (constant_model (1 # 2)) (VStr "#fff") empty_session) = Return res
    /\ confidence res = Num 0
    /\ prediction res = "dislike".
Proof.
  destruct (predictColor_confidence (constant_model (1 # 2)) (VStr "#fff")
              [Num 1; Num 1; Num 1] (Tensor (1, 1) [Num (1 # 2)]) (1 # 2) empty_session
              eq_refl eq_refl eq_refl)
    as (res & Hres & _ & Hzero & Hdislike).
  exists res. split; [exact Hres|]. split.
  - apply Hzero. reflexivity.
  - apply Hdislike. reflexivity.
Defined.

(** X9. The confidence is symmetric about the decision boundary: a score
    [q] and a score [1 - q] are reported with the same confidence, and, away
    from 0.5, with opposite classifications. *)
Theorem predictColor_confidence_symmetric
    (model1 model2 : Model) (color1 color2 : value) (rgb1 rgb2 : list number)
    (out1 out2 : tensor) (q1 q2 : Q) (st1 st2 : state) :
  hexToRgb color1 = Some rgb1 ->
  forward model1 (Tensor (1, 3) rgb1) = Return out1 ->
  values out1 !! 0 = Some (Num q1) ->
  hexToRgb color2 = Some rgb2 ->
  forward model2 (Tensor (1, 3) rgb2) = Return out2 ->
  values out2 !! 0 = Some (Num q2) ->
  (q2 == 1 - q1)%Q ->
  exists res1 res2,
    fst (predictColor model1 color1 st1) = Return res1
    /\ fst (predictColor model2 color2 st2) = Return res2
    /\ confidence res1 = confidence res2
    /\ (~ (q1 == 1 # 2)%Q -> likely res1 = negb (likely res2)).
Proof.
  intros H1 F1 V1 H2 F2 V2 E.
  rewrite (predictColor_parsed model1 color1 rgb1 st1 H1), F1.
  rewrite (predictColor_parsed model2 color2 rgb2 st2 H2), F2.
  exists (result_of (values out1)), (result_of (values out2)).
  split; [reflexivity|]. split; [reflexivity|].
  unfold result_of. rewrite V1, V2. cbn [confidence likely].
  change (to_number (Some (Num q1))) with (Num q1).
  change (to_number (Some (Num q2))) with (Num q2).
  rewrite !confidence_closed_form. split.
  - f_equal. apply Qred_complete.
    assert (A : (q2 - (1 # 2) == - (q1 - (1 # 2)))%Q) by lra.
    rewrite A, Qabs_opp. reflexivity.
  - intros Hne.
    destruct (num_gt (Num q1) (Num (1 # 2))) eqn:G1;
      destruct (num_gt (Num q2) (Num (1 # 2))) eqn:G2; try reflexivity; exfalso.
    + apply num_gt_half in G1. apply num_gt_half in G2. lra.
    + assert (N1 : ~ (1 # 2 < q1)%Q)
        by (intros L; apply num_gt_half in L; congruence).
      assert (N2 : ~ (1 # 2 < q2)%Q)
        by (intros L; apply num_gt_half in L; congruence).
      apply Hne. lra.
Qed.

Lemma predictColor_confidence_symmetric_witness :
  exists res1 res2,
    fst (predictColor (constant_model (9 # 10)) (VStr "#fff") empty_session) = Return res1
    /\ fst (predictColor (constant_model (1 # 10)) (VStr "#000") empty_session) = Return res2
    /\ confidence res1 = confidence res2.
Proof.
  destruct (predictColor_confidence_symmetric
              (constant_model (9 # 10)) (constant_model (1 # 10))
              (VStr "#fff") (VStr "#000")
              [Num 1; Num 1; Num 1] [Num 0; Num 0; Num 0]
              (Tensor (1, 1) [Num (9 # 10)]) (Tensor (1, 1) [Num (1 # 10)])
              (9 # 10) (1 # 10) empty_session empty_session
              eq_refl eq_refl eq_refl eq_refl eq_refl eq_refl eq_refl)
    as (res1 & res2 & R1 & R2 & Hc & _).
  exists res1, res2. split; [exact R1|]. split; [exact R2 | exact Hc].
Defined.

(** X10. [predictColor] answers ["like"] only for a numeric score above
    0.5.  When the output of the engine has no first entry, or it is not a
    number, the call does not throw: it reports the colour as disliked, with
    a confidence that is not a number. *)
Theorem predictColor_like_needs_score (model : Model) (color : value)
    (rgb : list number) (out : tensor) (st : state) :
  hexToRgb color = Some rgb ->
  forward model (Tensor (1, 3) rgb) = Return out ->
  exists res,
    fst (predictColor model color st) = Return res
    /\ (prediction res = "like" ->
        exists q, values out !! 0 = Some (Num q) /\ (1 # 2 < q)%Q)
    /\ (values out !! 0 = None \/ values out !! 0 = Some NaN ->
        score res = values out !! 0
        /\ confidence res = NaN
        /\ likely res = false
        /\ prediction res = "dislike").
Proof.
  intros H Hf. rewrite (predictColor_parsed model color rgb st H), Hf.
  exists (result_of (values out)). split; [reflexivity|].
  unfold result_of. cbn [score confidence likely prediction].
  destruct (values out !! 0) as [[q|]|] eqn:V.
  - split.
    + destruct (num_gt _ _) eqn:G; [|discriminate].
      intros _. exists q. split; [reflexivity | apply num_gt_half; exact G].
    + intros [E | E]; discriminate E.
  - split; [discriminate|]. intros _. repeat split.
  - split; [discriminate|]. intros _. repeat split.
Qed.

Lemma predictColor_like_needs_score_witness :
  exists res,
    fst (predictColor {| forward := fun _ => Return (Tensor (0, 0) []);
                         fit_engine := fun _ _ _ => Return [] |}
           (VStr "#fff") empty_session) = Return res
    /\ confidence res = NaN
    /\ prediction res = "dislike".
Proof.
  destruct (predictColor_like_needs_score
              {| forward := fun _ => Return (Tensor (0, 0) []);
                 fit_engine := fun _ _ _ => Return [] |}
              (VStr "#fff") [Num 1; Num 1; Num 1] (Tensor (0, 0) []) empty_session
              eq_refl eq_refl)
    as (res & Hres & _ & Hmissing).
  exists res. split; [exact Hres|].
  destruct (Hmissing (or_introl eq_refl)) as (_ & Hc & _ & Hp).
  split; [exact Hc | exact Hp].
Defined.

(** X11. [predictColor] reads the colour only through [hexToRgb]: two
    values with the same vector get the same outcome and the same effects.
    In particular the prediction for a hex colour string does not depend on
    its letter case, on the [#] prefix or on the use of the shorthand. *)
Theorem predictColor_depends_on_vector (model : Model) (st : state) :
  (forall c1 c2, hexToRgb c1 = hexToRgb c2 ->
     predictColor model c1 st = predictColor model c2 st)
  /\ (forall s t, same_ignoring_case s t ->
        predictColor model (VStr t) st = predictColor model (VStr s) st)
  /\ (forall s, is_hex_color s = true ->
        predictColor model (VStr (strip_hash s)) st = predictColor model (VStr s) st)
  /\ (forall d, String.length d = 3 ->
        predictColor model (VStr (duplicate_digits d)) st = predictColor model (VStr d) st).
Proof.
  assert (G : forall c1 c2, hexToRgb c1 = hexToRgb c2 ->
                predictColor model c1 st = predictColor model c2 st).
  { intros c1 c2 E. unfold predictColor. rewrite E. reflexivity. }
  split; [exact G|]. split; [|split].
  - intros s t E. apply G. apply hexToRgb_same_ignoring_case. exact E.
  - intros s E. apply G. apply hexToRgb_strip_hash. exact E.
  - intros d E. apply G. apply hexToRgb_duplicate. exact E.
Qed.

Lemma predictColor_depends_on_vector_witness :
  predictColor (constant_model (9 # 10)) (VStr "#ABCDEF") empty_session
  = predictColor (constant_model (9 # 10)) (VStr "#abcdef") empty_session.
Proof.
  apply (predictColor_depends_on_vector (constant_model (9 # 10)) empty_session).
  reflexivity.
Defined.

(** ** The page component *)

Section Page.

Lemma ui_run_snoc (events : list ui_event) (ev : ui_event) :
  ui_run (events ++ [ev]) = ui_step (ui_run events) ev.
Proof. unfold ui_run. rewrite fold_left_app. reflexivity. Qed.

Lemma ui_run_app (events more : list ui_event) :
  ui_run (events ++ more) = fold_left ui_step more (ui_run events).
Proof. unfold ui_run. apply fold_left_app. Qed.

Lemma count_presses_snoc (liked : bool) (events : list ui_event) (ev : ui_event) :
  count_presses liked (events ++ [ev])
  = count_presses liked events
    + match ev with
      | PressButton b => if Bool.eqb b liked then 1 else 0
      | PickColor _ => 0
      end.
Proof.
  induction events as [|[c|b] events IH]; simpl.
  - destruct ev; lia.
  - exact IH.
  - rewrite IH. lia.
Qed.

Lemma picks_parse_snoc (events : list ui_event) (ev : ui_event) :
  picks_parse (events ++ [ev]) ->
  picks_parse events
  /\ match ev with PickColor color => parses color | PressButton _ => True end.
Proof.
  unfold picks_parse. intros H. apply Forall_app in H as [H1 H2].
  split; [exact H1|]. inversion H2; subst. assumption.
Qed.

(** The lists only grow. *)
Lemma fold_ui_step_lengths (more : list ui_event) (c : Colors) :
  length (selected c) <= length (selected (fold_left ui_step more c))
  /\ length (unselected c) <= length (unselected (fold_left ui_step more c)).
Proof.
  revert c. induction more as [|ev more IH]; intros c; simpl; [lia|].
  destruct (IH (ui_step c ev)) as [H1 H2].
  assert (length (selected c) <= length (selected (ui_step c ev))
          /\ length (unselected c) <= length (unselected (ui_step c ev))) as [G1 G2].
  { destruct ev as [color|[|]]; simpl; rewrite ?length_app; simpl; lia. }
  lia.
Qed.

Lemma recorded_lengths (events : list ui_event) :
  length (selected (ui_run events)) = count_presses true events
  /\ length (unselected (ui_run events)) = count_presses false events.
Proof.
  induction events as [|ev events [IH1 IH2]] using rev_ind; [split; reflexivity|].
  rewrite ui_run_snoc, !count_presses_snoc.
  destruct ev as [color|[|]]; simpl; rewrite ?length_app; simpl; lia.
Qed.

Lemma recorded_parse (events : list ui_event) :
  picks_parse events ->
  Forall parses (selected (ui_run events))
  /\ Forall parses (unselected (ui_run events))
  /\ parses (current (ui_run events)).
Proof.
  induction events as [|ev events IH] using rev_ind; intros Hp.
  - repeat split; try constructor. unfold parses. discriminate.
  - apply picks_parse_snoc in Hp as [Hp Hev].
    destruct (IH Hp) as (Hs & Hu & Hc).
    rewrite ui_run_snoc. destruct ev as [color|[|]]; simpl.
    + repeat split; assumption.
    + split; [|split; assumption].
      apply Forall_app. split; [exact Hs | constructor; [exact Hc | constructor]].
    + split; [exact Hs|]. split; [|exact Hc].
      apply Forall_app. split; [exact Hu | constructor; [exact Hc | constructor]].
Qed.

Lemma parseable_all (l : list value) :
  Forall parses l -> length (parseable l) = length l.
Proof.
  induction 1 as [|v l Hv _ IH]; [reflexivity|].
  unfold parses in Hv.
  change (parseable (v :: l))
    with (from_option (fun r => r :: parseable l) (parseable l) (hexToRgb v)).
  destruct (hexToRgb v); [simpl; congruence | congruence].
Qed.

End Page.

(** X12. Whatever the user does, the colours recorded on the page are the
    ones that were current when a button was pressed: after any sequence of
    picks and presses the liked list has one entry per press of Like and the
    disliked list one per press of Dislike, and the total is the number of
    presses.  If, moreover, every colour picked is one that [hexToRgb]
    accepts, then so is every recorded colour (the initial colour
    ["#000000"] included) and the current one. *)
Theorem recorded_colours (events : list ui_event) :
  length (selected (ui_run events)) = count_presses true events
  /\ length (unselected (ui_run events)) = count_presses false events
  /\ stats_totalSamples (ui_run events)
     = count_presses true events + count_presses false events
  /\ (picks_parse events ->
      Forall parses (selected (ui_run events))
      /\ Forall parses (unselected (ui_run events))
      /\ parses (current (ui_run events))).
Proof.
  destruct (recorded_lengths events) as [L1 L2].
  split; [exact L1|]. split; [exact L2|].
  split; [unfold stats_totalSamples; lia|].
  apply recorded_parse.
Qed.

Lemma recorded_colours_witness :
  stats_totalSamples
    (ui_run [PressButton true; PickColor (VStr "#ff0000"); PressButton false;
             PressButton true]) = 3
  /\ Forall parses
       (selected (ui_run [PressButton true; PickColor (VStr "#ff0000"); PressButton false;
                          PressButton true])).
Proof.
  destruct (recorded_colours
              [PressButton true; PickColor (VStr "#ff0000"); PressButton false;
               PressButton true]) as (_ & _ & Htotal & Hparse).
  split; [exact Htotal|].
  apply Hparse. repeat constructor. discriminate.
Defined.

(** X13. Training is enabled exactly when at least two colours are liked
    and at least two disliked, hence after at least four presses; once
    enabled it stays enabled, whatever the user does next. *)
Theorem canTrain_monotone (events more : list ui_event) :
  (stats_canTrain (ui_run events) = true
   <-> 2 <= count_presses true events /\ 2 <= count_presses false events)
  /\ (stats_canTrain (ui_run events) = true ->
      stats_canTrain (ui_run (events ++ more)) = true
      /\ 4 <= stats_totalSamples (ui_run events)).
Proof.
  unfold stats_canTrain, stats_totalSamples.
  destruct (recorded_lengths events) as [L1 L2].
  rewrite andb_true_iff, !Nat.leb_le, L1, L2.
  split; [reflexivity|]. intros [H1 H2].
  rewrite ui_run_app.
  destruct (fold_ui_step_lengths more (ui_run events)) as [G1 G2].
  split; [|lia].
  apply andb_true_intro. split; apply Nat.leb_le; lia.
Qed.

Lemma canTrain_monotone_witness :
  stats_canTrain
    (ui_run ([PressButton true; PressButton true; PressButton false; PressButton false]
             ++ [PickColor (VStr "#123456"); PressButton true])) = true.
Proof.
  apply (canTrain_monotone
           [PressButton true; PressButton true; PressButton false; PressButton false]
           [PickColor (VStr "#123456"); PressButton true]).
  reflexivity.
Defined.

(** X14. When the page enables training and every colour picked was one
    that [hexToRgb] accepts, the Preprocessor succeeds on the recorded lists,
    nothing is dropped (the dataset has [stats.totalSamples] samples, the
    number the page reports as trained), and the only way [trainModel] can
    fail is a failure of the engine's fit procedure. *)
Theorem page_training_data (events : list ui_event) (model : Model)
    (sel uns : value) (st : state) :
  picks_parse events ->
  stats_canTrain (ui_run events) = true ->
  array_of st sel = Some (selected (ui_run events)) ->
  array_of st uns = Some (unselected (ui_run events)) ->
  (exists d,
     fst (preprocessData sel uns st) = Return d
     /\ totalSamples d = stats_totalSamples (ui_run events)
     /\ 4 <= totalSamples d)
  /\ (forall e,
        fst (trainModel model sel uns page_config st) = Throw e ->
        exists x y original,
          fit_engine model x y (fit_args page_config) = Throw original
          /\ message e = "Training failed: " ++ message original)
  /\ fit_args page_config = fit_args None.
Proof.
  intros Hp Hc Hs Hu.
  destruct (recorded_parse events Hp) as (Ps & Pu & _).
  pose proof (parseable_all _ Ps) as Ls. pose proof (parseable_all _ Pu) as Lu.
  unfold stats_canTrain in Hc. apply andb_prop in Hc as [H1 H2].
  apply Nat.leb_le in H1. apply Nat.leb_le in H2.
  assert (Ns : parseable (selected (ui_run events)) <> [])
    by (intros E; rewrite E in Ls; simpl in Ls; lia).
  assert (Nu : parseable (unselected (ui_run events)) <> [])
    by (intros E; rewrite E in Lu; simpl in Lu; lia).
  pose proof (preprocessData_listed st sel uns _ _ Hs Hu) as Hd.
  rewrite (parseable_nonempty _ Ns), (parseable_nonempty _ Nu) in Hd.
  rewrite (length_nonzero _ Ns), (length_nonzero _ Nu) in Hd. simpl in Hd.
  split; [|split; [|reflexivity]].
  - rewrite Hd. eexists. split; [reflexivity|]. simpl.
    unfold stats_totalSamples. lia.
  - intros e.
    rewrite (trainModel_preprocess_returns _ _ _ _ _ _ _ Hd). cbn [xs ys].
    rewrite fit_on_dataset. simpl.
    destruct (fit_engine model _ _ _) as [h|e0] eqn:Hfit; intros [= <-].
    eexists _, _, e0. split; [exact Hfit | reflexivity].
Qed.

Lemma page_training_data_witness :
  exists d,
    fst (preprocessData (VArr 0) (VArr 1)
           {| arrays := <[0 := [VStr "#000000"; VStr "#000000"]]>
                          (<[1 := [VStr "#ff0000"; VStr "#ff0000"]]> ∅);
              live := ∅; next_id := 0; calls := [] |}) = Return d
    /\ totalSamples d = 4.
Proof.
  destruct (page_training_data
              [PressButton true; PressButton true; PickColor (VStr "#ff0000");
               PressButton false; PressButton false]
              (constant_model (9 # 10)) (VArr 0) (VArr 1)
              {| arrays := <[0 := [VStr "#000000"; VStr "#000000"]]>
                             (<[1 := [VStr "#ff0000"; VStr "#ff0000"]]> ∅);
                 live := ∅; next_id := 0; calls := [] |})
    as ((d & Hd & Htotal & _) & _).
  - repeat constructor. discriminate.
  - reflexivity.
  - reflexivity.
  - reflexivity.
  - exists d. split; [exact Hd | exact Htotal].
Defined.

(** ** What the page shows after a failure *)

(** X17. What the user reads after a failure.  An error that [trainModel]
    throws is shown with the prefix twice
    (["Training failed: Training failed: ..."]), since the page adds the
    prefix that [trainModel] has already added; a failure of [saveModel]
    after a successful training is shown as
    ["Training failed: Failed to save model: ..."]; and a colour that does
    not parse is shown as ["Prediction failed: Invalid color format"]. *)
Theorem error_banners {S : Type} (io : Storage S) (model : Model) (sel uns color : value)
    (config : option Config) (modelId : string) (st : state) (s : S) :
  (forall e,
     fst (trainModel model sel uns config st) = Throw e ->
     exists msg,
       training_error_banner e = "Training failed: Training failed: " ++ msg)
  /\ (forall e,
        fst (saveModel io model modelId s) = Throw e ->
        exists msg,
          training_error_banner e = "Training failed: Failed to save model: " ++ msg)
  /\ (forall e,
        hexToRgb color = None ->
        fst (predictColor model color st) = Throw e ->
        prediction_error_banner e = "Prediction failed: Invalid color format").
Proof.
  split; [|split].
  - intros e H. destruct (trainModel_throw_message _ _ _ _ _ _ H) as [msg Hmsg].
    exists msg. unfold training_error_banner. rewrite Hmsg. reflexivity.
  - intros e. unfold saveModel.
    destruct (engine_save io model _ s) as [[[]|e0] s1]; simpl; intros [= <-].
    exists (message e0). reflexivity.
  - intros e Hc. unfold predictColor. rewrite Hc. simpl. intros [= <-]. reflexivity.
Qed.

Lemma error_banners_witness :
  exists msg,
    training_error_banner
      (Error "Training failed: Both selected and unselected colors must contain data")
    = "Training failed: Training failed: " ++ msg.
Proof.
  apply (proj1 (error_banners map_storage (constant_model (9 # 10)) (VArr 0) (VArr 1)
                  VNull None "m" empty_liked_session ∅)).
  reflexivity.
Defined.

(** ** The Model Factory and the Prediction component *)

(** X18. Whatever the configuration, the network of [createModel] fits the
    data of the pipeline: its first layer declares an input of width 3, the
    length of every vector that [hexToRgb] returns; the widths run through
    the nine layers from 3 to the single sigmoid unit of the last one; both
    dropout layers get the configured rate and the optimizer the configured
    learning rate, 0.2 and 0.001 when the configuration omits them. *)
Theorem createModel_fits_pipeline (config : option ModelConfig) :
  length (layers (createModel config)) = 9
  /\ head (layers (createModel config)) = Some (Dense 32 (Some [3]) None "glorotNormal")
  /\ last (layers (createModel config)) = Some (Dense 1 None (Some "sigmoid") "glorotNormal")
  /\ fold_left layer_width (layers (createModel config)) 3 = 1
  /\ (forall v rgb, hexToRgb v = Some rgb ->
        head (layers (createModel config))
        = Some (Dense 32 (Some [length rgb]) None "glorotNormal"))
  /\ (forall d, In (Dropout d) (layers (createModel config)) ->
        d = or_default (VNum (Num (1 # 5))) (cfg_dropout (default empty_model_config config)))
  /\ (exists l,
        compiled (createModel config)
        = Some {| loss := "binaryCrossentropy";
                  optimizer := Adam l;
                  metrics := ["accuracy"; "precision"] |}
        /\ l = or_default (VNum (Num (1 # 1000)))
                 (cfg_learningRate (default empty_model_config config)))
  /\ createModel (Some empty_model_config) = createModel None
  /\ In (Dropout (VNum (Num (1 # 5)))) (layers (createModel None)).
Proof.
  split; [reflexivity|]. split; [reflexivity|]. split; [reflexivity|].
  split; [reflexivity|]. split.
  - intros v rgb H. rewrite (hexToRgb_length v rgb H). reflexivity.
  - split.
    + intros d H. simpl in H.
      repeat (destruct H as [H|H]; [try discriminate H; injection H as <-; reflexivity|]).
      contradiction.
    + split; [eexists; split; reflexivity|].
      split; [reflexivity|]. simpl. tauto.
Qed.

Lemma createModel_fits_pipeline_witness :
  head (layers (createModel (Some {| cfg_learningRate := VNum (Num (1 # 100));
                                     cfg_dropout := VNum (Num (1 # 2)) |})))
  = Some (Dense 32 (Some [length [Num 1; Num 1; Num 1]]) None "glorotNormal").
Proof.
  apply (createModel_fits_pipeline
           (Some {| cfg_learningRate := VNum (Num (1 # 100));
                    cfg_dropout := VNum (Num (1 # 2)) |})) with (v := VStr "#fff").
  reflexivity.
Defined.

(** X19. The Prediction component and [predictColor] classify alike: fed
    the score of a prediction result, the component writes ["Like"] exactly
    when the result's label is ["like"], and ["Dislike"] otherwise; it
    renders nothing only for [null]. *)
Theorem predictionText_agrees (model : Model) (color : value) (rgb : list number)
    (out : tensor) (st : state) :
  hexToRgb color = Some rgb ->
  forward model (Tensor (1, 3) rgb) = Return out ->
  exists res,
    fst (predictColor model color st) = Return res
    /\ (predictionText (PropValue (score res)) = Some "Like" <-> prediction res = "like")
    /\ (predictionText (PropValue (score res)) = Some "Dislike"
        <-> prediction res = "dislike")
    /\ (forall p, predictionText p = None <-> p = PropNull).
Proof.
  intros H Hf. rewrite (predictColor_parsed model color rgb st H), Hf.
  exists (result_of (values out)). split; [reflexivity|].
  unfold result_of, predictionText. cbn [score prediction].
  split; [|split].
  - destruct (num_gt _ _); split; intros E; try reflexivity; discriminate E.
  - destruct (num_gt _ _); split; intros E; try reflexivity; discriminate E.
  - intros [|v]; split; intros E; try reflexivity; discriminate E.
Qed.

Lemma predictionText_agrees_witness :
  exists res,
    fst (predictColor (constant_model (9 # 10)) (VStr "#fff") empty_session) = Return res
    /\ predictionText (PropValue (score res)) = Some "Like".
Proof.
  destruct (predictionText_agrees (constant_model (9 # 10)) (VStr "#fff")
              [Num 1; Num 1; Num 1] (Tensor (1, 1) [Num (9 # 10)]) empty_session
              eq_refl eq_refl)
    as (res & Hres & Hlike & _).
  exists res. split; [exact Hres|]. apply Hlike.
  rewrite (predictColor_parsed (constant_model (9 # 10)) (VStr "#fff")
             [Num 1; Num 1; Num 1] empty_session eq_refl) in Hres.
  simpl in Hres. injection Hres as <-. reflexivity.
Defined.

(** ** The random background colour *)

Section RandomColor.

Local Open Scope N_scope.

Lemma hex_char_digit (d : N) :
  d < 16 ->
  lower_hex (hex_char d) = true /\ hex_digit (hex_char d) = Some (Z.of_N d).
Proof.
  intros H. rewrite <- (N2Nat.id d).
  assert (K : (N.to_nat d < 16)%nat) by lia.
  generalize dependent (N.to_nat d). intros k K.
  do 16 (destruct k as [|k]; [split; reflexivity|]). lia.
Qed.

Lemma lower_hex_class (c : ascii) : lower_hex c = true -> hex_class c = true.
Proof.
  destruct c as [b0 b1 b2 b3 b4 b5 b6 b7].
  destruct b0, b1, b2, b3, b4, b5, b6, b7; vm_compute; intros H;
    first [reflexivity | discriminate H].
Qed.

Lemma all_chars_app (p : ascii -> bool) (s t : string) :
  all_chars p (s ++ t) = all_chars p s && all_chars p t.
Proof.
  unfold all_chars. induction s as [|c s IH]; simpl; [reflexivity|].
  rewrite IH. apply andb_assoc.
Qed.

Lemma all_chars_weaken (p q : ascii -> bool) (s : string) :
  (forall c, p c = true -> q c = true) ->
  all_chars p s = true -> all_chars q s = true.
Proof.
  intros Hpq. unfold all_chars. induction s as [|c s IH]; simpl; [reflexivity|].
  intros H. apply andb_prop in H as [H1 H2].
  rewrite (Hpq c H1), (IH H2). reflexivity.
Qed.

Lemma parse_digits_app (s t : string) (acc : option Z) :
  all_chars hex_class s = true ->
  parse_digits acc (s ++ t) = parse_digits (parse_digits acc s) t.
Proof.
  revert acc. unfold all_chars.
  induction s as [|c s IH]; intros acc H; simpl in *; [reflexivity|].
  apply andb_prop in H as [Hc Hs].
  destruct (hex_class_digit c Hc) as (d & -> & _). apply IH. exact Hs.
Qed.

(** The digits that [hex_of] writes: lower-case digits of radix 16 that
    read back as the number, as many as the size of the number requires. *)
Lemma hex_of_spec (fuel : nat) (n : N) :
  n < 2 ^ N.of_nat fuel -> (1 <= fuel)%nat ->
  all_chars lower_hex (hex_of fuel n) = true
  /\ parse_digits None (hex_of fuel n) = Some (Z.of_N n)
  /\ (1 <= String.length (hex_of fuel n))%nat
  /\ (forall k : nat, n < 16 ^ N.of_nat (S k) -> (String.length (hex_of fuel n) <= S k)%nat)
  /\ (forall k : nat, 16 ^ N.of_nat k <= n -> (S k <= String.length (hex_of fuel n))%nat).
Proof.
  revert n. induction fuel as [|fuel IH]; intros n Hn Hfuel; [lia|].
  simpl hex_of. destruct (N.ltb_spec n 16) as [Hsmall|Hbig].
  - destruct (hex_char_digit n Hsmall) as [Hl Hd].
    split; [unfold all_chars; simpl; rewrite Hl; reflexivity|].
    split; [simpl; rewrite Hd; simpl; f_equal; lia|].
    split; [simpl; lia|]. split.
    + intros k _. simpl. lia.
    + intros k Hk. simpl. destruct k as [|k]; [lia|].
      rewrite Nat2N.inj_succ, N.pow_succ_r' in Hk.
      assert (1 <= 16 ^ N.of_nat k) by (apply N.pow_lower_bound; lia). lia.
  - assert (Hpow : 2 ^ N.of_nat (S fuel) = 2 * 2 ^ N.of_nat fuel)
      by (rewrite Nat2N.inj_succ; apply N.pow_succ_r').
    assert (Hf : (1 <= fuel)%nat).
    { destruct fuel; [|lia]. simpl in Hn. lia. }
    assert (Hdiv : n / 16 < 2 ^ N.of_nat fuel).
    { apply N.Div0.div_lt_upper_bound. lia. }
    destruct (IH (n / 16) Hdiv Hf) as (Hall & Hparse & Hlen & Hup & Hlow).
    pose proof (N.mod_upper_bound n 16 ltac:(lia)) as Hmod.
    destruct (hex_char_digit (n mod 16) Hmod) as [Hl Hd].
    split; [rewrite all_chars_app, Hall; unfold all_chars; simpl; rewrite Hl; reflexivity|].
    split.
    { rewrite parse_digits_app
        by (eapply all_chars_weaken; [apply lower_hex_class | exact Hall]).
      rewrite Hparse. simpl. rewrite Hd. simpl. f_equal.
      pose proof (N.div_mod n 16 ltac:(lia)) as E. lia. }
    rewrite string_length_append. simpl String.length.
    split; [lia|]. split.
    + intros k Hk. destruct k as [|k]; [simpl in Hk; lia|].
      rewrite Nat2N.inj_succ, N.pow_succ_r' in Hk.
      assert (n / 16 < 16 ^ N.of_nat (S k))
        by (apply N.Div0.div_lt_upper_bound; exact Hk).
      specialize (Hup k ltac:(assumption)). lia.
    + intros k Hk. destruct k as [|k]; [lia|].
      rewrite Nat2N.inj_succ, N.pow_succ_r' in Hk.
      assert (16 ^ N.of_nat k <= n / 16)
        by (apply N.div_le_lower_bound; [lia | exact Hk]).
      specialize (Hlow k ltac:(assumption)). lia.
Qed.

Lemma toString16_spec (n : N) :
  all_chars lower_hex (toString16 n) = true
  /\ parse_digits None (toString16 n) = Some (Z.of_N n)
  /\ (1 <= String.length (toString16 n))%nat
  /\ (forall k : nat, n < 16 ^ N.of_nat (S k) -> (String.length (toString16 n) <= S k)%nat)
  /\ (forall k : nat, 16 ^ N.of_nat k <= n -> (S k <= String.length (toString16 n))%nat).
Proof.
  unfold toString16. apply hex_of_spec; [|lia].
  rewrite Nat2N.inj_succ, N2Nat.id, N.pow_succ_r'.
  pose proof (N.size_gt n). lia.
Qed.

Lemma random_color_number (product : Q) :
  (0 <= product)%Q -> (product <= 16777215)%Q ->
  (0 <= Qfloor product <= 16777215)%Z.
Proof.
  intros H0 H1. split.
  - change 0%Z with (Qfloor 0). apply Qfloor_resp_le. exact H0.
  - change 16777215%Z with (Qfloor (inject_Z 16777215)).
    apply Qfloor_resp_le. exact H1.
Qed.

End RandomColor.

(** X20. [getRandomColor] returns [#] followed by the digits, in radix 16,
    of the floor of the product [Math.random() * 16777215] as the runtime
    computes it (a number from 0 to 16777215): between one and six lower-case
    digits that read back as that floor, without padding.  The result is
    ["#ffffff"] only if the product is exactly 16777215; it has six digits
    only when the floor is at least 0x100000, and [hexToRgb] accepts it only
    then or when it happens to have three digits (0x100 to 0xfff). *)
Theorem getRandomColor_format (product : Q) :
  (0 <= product)%Q -> (product <= 16777215)%Q ->
  exists digits,
    getRandomColor product = String "#" digits
    /\ 1 <= String.length digits <= 6
    /\ all_chars lower_hex digits = true
    /\ parseInt16 digits = Num (inject_Z (Qfloor product))
    /\ (digits = "ffffff" <-> (product == 16777215)%Q)
    /\ (String.length digits = 6 <-> (1048576 <= Qfloor product)%Z)
    /\ (hexToRgb (VStr (getRandomColor product)) <> None
        <-> (1048576 <= Qfloor product)%Z \/ (256 <= Qfloor product < 4096)%Z).
Proof.
  intros H0 H1. destruct (random_color_number product H0 H1) as [Hnonneg Hmax].
  unfold getRandomColor. cbv zeta.
  assert (Hz : Z.of_N (Z.to_N (Qfloor product)) = Qfloor product) by lia.
  destruct (toString16_spec (Z.to_N (Qfloor product))) as (Hall & Hparse & Hlen & Hup & Hlow).
  rewrite Hz in Hparse.
  set (n := Z.to_N (Qfloor product)) in *.
  set (digits := toString16 n) in *.
  exists digits. split; [reflexivity|].
  assert (L6 : String.length digits <= 6) by (apply (Hup 5); simpl; lia).
  split; [lia|]. split; [exact Hall|].
  split; [unfold parseInt16; rewrite Hparse; reflexivity|].
  split.
  { split.
    - intros E. rewrite E in Hparse.
      assert (P : parse_digits None "ffffff" = Some 16777215%Z) by reflexivity.
      rewrite P in Hparse. injection Hparse as Hparse.
      pose proof (Qfloor_le product) as Hle. rewrite <- Hparse in Hle.
      apply Qle_antisym; [exact H1 | exact Hle].
    - intros E. unfold digits, n. rewrite E. reflexivity. }
  assert (Six : String.length digits = 6 <-> (1048576 <= Qfloor product)%Z).
  { split.
    - intros E. destruct (Z.le_gt_cases 1048576 (Qfloor product)) as [G|G]; [exact G|].
      specialize (Hup 4 ltac:(simpl; lia)). lia.
    - intros G. specialize (Hlow 5 ltac:(simpl; lia)). lia. }
  assert (Three : String.length digits = 3 <-> (256 <= Qfloor product < 4096)%Z).
  { split.
    - intros E. split.
      + destruct (Z.le_gt_cases 256 (Qfloor product)) as [G|G]; [exact G|].
        specialize (Hup 1 ltac:(simpl; lia)). lia.
      + destruct (Z.le_gt_cases 4096 (Qfloor product)) as [G|G]; [|lia].
        specialize (Hlow 3 ltac:(simpl; lia)). lia.
    - intros [G1 G2].
      specialize (Hlow 2 ltac:(simpl; lia)). specialize (Hup 2 ltac:(simpl; lia)). lia. }
  split; [exact Six|].
  change ("#" ++ digits)%string with (String "#" digits).
  rewrite hexToRgb_string. change (strip_hash (String "#" digits)) with digits.
  simpl String.eqb. cbv iota.
  assert (Hclass : forallb hex_class (list_ascii_of_string digits) = true)
    by (apply (all_chars_weaken lower_hex hex_class); [apply lower_hex_class | exact Hall]).
  destruct (matches_hex_pattern digits) eqn:Hp.
  - destruct (expanded_six _ Hp) as (c1 & c2 & c3 & c4 & c5 & c6 & -> & _).
    split; [|discriminate]. intros _.
    unfold matches_hex_pattern in Hp. apply andb_prop in Hp as [Hp _].
    apply orb_prop in Hp as [Hp | Hp]; apply Nat.eqb_eq in Hp.
    + right. apply Three. exact Hp.
    + left. apply Six. exact Hp.
  - split; [congruence|]. intros G. exfalso.
    unfold matches_hex_pattern in Hp. rewrite Hclass, andb_true_r in Hp.
    apply orb_false_elim in Hp as [P3 P6].
    apply Nat.eqb_neq in P3. apply Nat.eqb_neq in P6.
    destruct G as [G | G]; [apply P6, Six, G | apply P3, Three, G].
Qed.

Lemma getRandomColor_format_witness :
  exists digits,
    getRandomColor 1048576 = String "#" digits
    /\ String.length digits = 6
    /\ digits <> "ffffff".
Proof.
  destruct (getRandomColor_format 1048576) as (digits & E & _ & _ & _ & W & S6 & _).
  - unfold Qle. simpl. lia.
  - unfold Qle. simpl. lia.
  - exists digits. split; [exact E|]. split.
    + apply S6. vm_compute. discriminate.
    + intros F. apply W in F. vm_compute in F. discriminate F.
Defined.

(** What the generator writes for a few products. *)
Example getRandomColor_examples :
  getRandomColor 0 = "#0"
  /\ getRandomColor (16777215 # 2) = "#7fffff"
  /\ getRandomColor 1048576 = "#100000"
  /\ getRandomColor (16777215 # 100000) = "#a7"
  /\ hexToRgb (VStr (getRandomColor (16777215 # 100000))) = None.
Proof. repeat split; vm_compute; reflexivity. Qed.
